(** * NextDNS sensor platform (homeassistant/components/nextdns/sensor.py)

    A shallow embedding of the sensor catalog [SENSORS], of the entity class
    [NextDnsSensor] and of [async_setup_entry], followed by the properties
    of the adapter: projection invariant, sequencing, idempotence, frame
    condition, totality on the matching snapshot class, unique identifiers
    and catalog well-formedness. *)

From Stdlib Require Import ZArith String List.
From Stdlib Require Import Floats.PrimFloat.
From stdpp Require Import gmap strings list.

Local Open Scope Z_scope.

(** ** Values published by a sensor *)

(** [StateType] of homeassistant.helpers.typing: [str | int | float | None].
    Python's [int] is unbounded, hence [Z]; [float] is a binary64. *)
Inductive StateType :=
  | StateNone
  | StateStr (s : string)
  | StateInt (n : Z)
  | StateFloat (f : float).

(** ** Snapshots held by the coordinators *)

(** Modelled from the spec: the five analytics classes imported from the
    [nextdns] package are declared outside this module. Each is a struct of
    named counters (integers) and ratios precomputed upstream (floats); only
    the attributes that this module reads are kept. *)
Record AnalyticsStatus := {
  all_queries : Z;
  blocked_queries : Z;
  relayed_queries : Z;
  blocked_queries_ratio : float }.

Record AnalyticsProtocols := {
  doh_queries : Z;
  dot_queries : Z;
  doq_queries : Z;
  udp_queries : Z;
  doh_queries_ratio : float;
  dot_queries_ratio : float;
  doq_queries_ratio : float;
  udp_queries_ratio : float }.

Record AnalyticsEncryption := {
  encrypted_queries : Z;
  unencrypted_queries : Z;
  encrypted_queries_ratio : float }.

Record AnalyticsIpVersions := {
  ipv4_queries : Z;
  ipv6_queries : Z;
  ipv6_queries_ratio : float }.

Record AnalyticsDnssec := {
  validated_queries : Z;
  not_validated_queries : Z;
  validated_queries_ratio : float }.

(** The classes over which [TCoordinatorData] ranges in this module: the
    type arguments given to [NextDnsSensorEntityDescription[...]]. *)
Inductive SnapshotClass :=
  | ClsAnalyticsStatus
  | ClsAnalyticsProtocols
  | ClsAnalyticsEncryption
  | ClsAnalyticsIpVersions
  | ClsAnalyticsDnssec.

#[global] Instance SnapshotClass_eq_dec : EqDecision SnapshotClass.
Proof. solve_decision. Defined.

(** A value of [coordinator.data]: an instance of one of the classes. *)
Inductive Snapshot :=
  | Status (s : AnalyticsStatus)
  | Protocols (p : AnalyticsProtocols)
  | Encryption (e : AnalyticsEncryption)
  | IpVersions (i : AnalyticsIpVersions)
  | Dnssec (d : AnalyticsDnssec).

Definition class_of (o : Snapshot) : SnapshotClass :=
  match o with
  | Status _ => ClsAnalyticsStatus
  | Protocols _ => ClsAnalyticsProtocols
  | Encryption _ => ClsAnalyticsEncryption
  | IpVersions _ => ClsAnalyticsIpVersions
  | Dnssec _ => ClsAnalyticsDnssec
  end.

Definition class_name (c : SnapshotClass) : string :=
  match c with
  | ClsAnalyticsStatus => "AnalyticsStatus"
  | ClsAnalyticsProtocols => "AnalyticsProtocols"
  | ClsAnalyticsEncryption => "AnalyticsEncryption"
  | ClsAnalyticsIpVersions => "AnalyticsIpVersions"
  | ClsAnalyticsDnssec => "AnalyticsDnssec"
  end.

(** ** Exceptions and results *)

Inductive Exception :=
  | AttributeError (cls attr : string)
  | KeyError (k : string)
  | InvalidReference.

Inductive result (A : Type) :=
  | Ok (a : A)
  | Raise (e : Exception).

Arguments Ok {A} a.
Arguments Raise {A} e.

(** The instance dictionary of a snapshot: attribute name to value, in
    declaration order. *)
Definition attributes (o : Snapshot) : list (string * StateType) :=
  match o with
  | Status s =>
      [ ("all_queries", StateInt (all_queries s));
        ("blocked_queries", StateInt (blocked_queries s));
        ("relayed_queries", StateInt (relayed_queries s));
        ("blocked_queries_ratio", StateFloat (blocked_queries_ratio s)) ]
  | Protocols p =>
      [ ("doh_queries", StateInt (doh_queries p));
        ("dot_queries", StateInt (dot_queries p));
        ("doq_queries", StateInt (doq_queries p));
        ("udp_queries", StateInt (udp_queries p));
        ("doh_queries_ratio", StateFloat (doh_queries_ratio p));
        ("dot_queries_ratio", StateFloat (dot_queries_ratio p));
        ("doq_queries_ratio", StateFloat (doq_queries_ratio p));
        ("udp_queries_ratio", StateFloat (udp_queries_ratio p)) ]
  | Encryption e =>
      [ ("encrypted_queries", StateInt (encrypted_queries e));
        ("unencrypted_queries", StateInt (unencrypted_queries e));
        ("encrypted_queries_ratio", StateFloat (encrypted_queries_ratio e)) ]
  | IpVersions i =>
      [ ("ipv4_queries", StateInt (ipv4_queries i));
        ("ipv6_queries", StateInt (ipv6_queries i));
        ("ipv6_queries_ratio", StateFloat (ipv6_queries_ratio i)) ]
  | Dnssec d =>
      [ ("validated_queries", StateInt (validated_queries d));
        ("not_validated_queries", StateInt (not_validated_queries d));
        ("validated_queries_ratio", StateFloat (validated_queries_ratio d)) ]
  end.

Fixpoint assoc (n : string) (l : list (string * StateType)) : option StateType :=
  match l with
  | [] => None
  | (k, v) :: l' => if String.eqb k n then Some v else assoc n l'
  end.

(** Python's [data.attr]: the attribute's value, or [AttributeError] when
    the object has no such attribute. *)
Definition getattr (o : Snapshot) (attr : string) : result StateType :=
  match assoc attr (attributes o) with
  | Some v => Ok v
  | None => Raise (AttributeError (class_name (class_of o)) attr)
  end.

(** ** Constants imported from the platform *)

(** Modelled from the spec: the category tags [ATTR_STATUS],
    [ATTR_PROTOCOLS], [ATTR_ENCRYPTION], [ATTR_IP_VERSIONS] and
    [ATTR_DNSSEC] of [.const] are declared outside this module, which uses
    them only as the keys under which the coordinators of one config entry
    are stored, one coordinator per tag. They are kept symbolic. *)
Inductive CoordinatorType :=
  | ATTR_STATUS
  | ATTR_PROTOCOLS
  | ATTR_ENCRYPTION
  | ATTR_IP_VERSIONS
  | ATTR_DNSSEC.

#[global] Instance CoordinatorType_eq_dec : EqDecision CoordinatorType.
Proof. solve_decision. Defined.

Definition CoordinatorType_code (t : CoordinatorType) : nat :=
  match t with
  | ATTR_STATUS => 0
  | ATTR_PROTOCOLS => 1
  | ATTR_ENCRYPTION => 2
  | ATTR_IP_VERSIONS => 3
  | ATTR_DNSSEC => 4
  end%nat.

Definition CoordinatorType_of_code (n : nat) : option CoordinatorType :=
  match n with
  | 0 => Some ATTR_STATUS
  | 1 => Some ATTR_PROTOCOLS
  | 2 => Some ATTR_ENCRYPTION
  | 3 => Some ATTR_IP_VERSIONS
  | 4 => Some ATTR_DNSSEC
  | _ => None
  end%nat.

#[global] Program Instance CoordinatorType_countable : Countable CoordinatorType :=
  inj_countable CoordinatorType_code CoordinatorType_of_code _.
Next Obligation. by intros []. Qed.

Definition attr_name (t : CoordinatorType) : string :=
  match t with
  | ATTR_STATUS => "ATTR_STATUS"
  | ATTR_PROTOCOLS => "ATTR_PROTOCOLS"
  | ATTR_ENCRYPTION => "ATTR_ENCRYPTION"
  | ATTR_IP_VERSIONS => "ATTR_IP_VERSIONS"
  | ATTR_DNSSEC => "ATTR_DNSSEC"
  end.

(** Modelled from the spec: [PERCENTAGE] of homeassistant.const, the unit
    of the ratio sensors, which are percentages. *)
Definition PERCENTAGE : string := "%".

(** [EntityCategory] and [SensorStateClass]: only the members named here. *)
Inductive EntityCategory := DIAGNOSTIC.
Inductive SensorStateClass := MEASUREMENT.

Definition PARALLEL_UPDATES : Z := 1.

(** ** Entity descriptions *)

(** [NextDnsSensorEntityDescription]: the fields of [SensorEntityDescription]
    that the catalog sets, and the two required keys of
    [NextDnsSensorRequiredKeysMixin]. [type_argument] records the class
    written in [NextDnsSensorEntityDescription[...]]; [value] is applied to
    whatever object the coordinator holds, so it may raise. *)
Record NextDnsSensorEntityDescription := {
  type_argument : SnapshotClass;
  key : string;
  coordinator_type : CoordinatorType;
  entity_category : option EntityCategory;
  entity_registry_enabled_default : bool;
  icon : option string;
  name : option string;
  native_unit_of_measurement : option string;
  state_class : option SensorStateClass;
  value : Snapshot -> result StateType }.

(** ** The catalog *)

(** [SENSORS], entry by entry and in the order of the tuple. A field that an
    entry does not set has the default of [SensorEntityDescription]:
    [entity_registry_enabled_default] is [True]. Each [value] is the entry's
    lambda, an attribute read on its argument. *)
Definition SENSORS : list NextDnsSensorEntityDescription :=
  [ {| type_argument := ClsAnalyticsStatus;
       key := "all_queries";
       coordinator_type := ATTR_STATUS;
       entity_category := Some DIAGNOSTIC;
       entity_registry_enabled_default := true;
       icon := Some "mdi:dns";
       name := Some "DNS queries";
       native_unit_of_measurement := Some "queries";
       state_class := Some MEASUREMENT;
       value := fun data => getattr data "all_queries" |};
    {| type_argument := ClsAnalyticsStatus;
       key := "blocked_queries";
       coordinator_type := ATTR_STATUS;
       entity_category := Some DIAGNOSTIC;
       entity_registry_enabled_default := true;
       icon := Some "mdi:dns";
       name := Some "DNS queries blocked";
       native_unit_of_measurement := Some "queries";
       state_class := Some MEASUREMENT;
       value := fun data => getattr data "blocked_queries" |};
    {| type_argument := ClsAnalyticsStatus;
       key := "relayed_queries";
       coordinator_type := ATTR_STATUS;
       entity_category := Some DIAGNOSTIC;
       entity_registry_enabled_default := true;
       icon := Some "mdi:dns";
       name := Some "DNS queries relayed";
       native_unit_of_measurement := Some "queries";
       state_class := Some MEASUREMENT;
       value := fun data => getattr data "relayed_queries" |};
    {| type_argument := ClsAnalyticsStatus;
       key := "blocked_queries_ratio";
       coordinator_type := ATTR_STATUS;
       entity_category := Some DIAGNOSTIC;
       entity_registry_enabled_default := true;
       icon := Some "mdi:dns";
       name := Some "DNS queries blocked ratio";
       native_unit_of_measurement := Some PERCENTAGE;
       state_class := Some MEASUREMENT;
       value := fun data => getattr data "blocked_queries_ratio" |};
    {| type_argument := ClsAnalyticsProtocols;
       key := "doh_queries";
       coordinator_type := ATTR_PROTOCOLS;
       entity_category := Some DIAGNOSTIC;
       entity_registry_enabled_default := false;
       icon := Some "mdi:dns";
       name := Some "DNS-over-HTTPS queries";
       native_unit_of_measurement := Some "queries";
       state_class := Some MEASUREMENT;
       value := fun data => getattr data "doh_queries" |};
    {| type_argument := ClsAnalyticsProtocols;
       key := "dot_queries";
       coordinator_type := ATTR_PROTOCOLS;
       entity_category := Some DIAGNOSTIC;
       entity_registry_enabled_default := false;
       icon := Some "mdi:dns";
       name := Some "DNS-over-TLS queries";
       native_unit_of_measurement := Some "queries";
       state_class := Some MEASUREMENT;
       value := fun data => getattr data "dot_queries" |};
    {| type_argument := ClsAnalyticsProtocols;
       key := "doq_queries";
       coordinator_type := ATTR_PROTOCOLS;
       entity_category := Some DIAGNOSTIC;
       entity_registry_enabled_default := false;
       icon := Some "mdi:dns";
       name := Some "DNS-over-QUIC queries";
       native_unit_of_measurement := Some "queries";
       state_class := Some MEASUREMENT;
       value := fun data => getattr data "doq_queries" |};
    {| type_argument := ClsAnalyticsProtocols;
       key := "udp_queries";
       coordinator_type := ATTR_PROTOCOLS;
       entity_category := Some DIAGNOSTIC;
       entity_registry_enabled_default := false;
       icon := Some "mdi:dns";
       name := Some "UDP queries";
       native_unit_of_measurement := Some "queries";
       state_class := Some MEASUREMENT;
       value := fun data => getattr data "udp_queries" |};
    {| type_argument := ClsAnalyticsProtocols;
       key := "doh_queries_ratio";
       coordinator_type := ATTR_PROTOCOLS;
       entity_category := Some DIAGNOSTIC;
       entity_registry_enabled_default := false;
       icon := Some "mdi:dns";
       name := Some "DNS-over-HTTPS queries ratio";
       native_unit_of_measurement := Some PERCENTAGE;
       state_class := Some MEASUREMENT;
       value := fun data => getattr data "doh_queries_ratio" |};
    {| type_argument := ClsAnalyticsProtocols;
       key := "dot_queries_ratio";
       coordinator_type := ATTR_PROTOCOLS;
       entity_category := Some DIAGNOSTIC;
       entity_registry_enabled_default := false;
       icon := Some "mdi:dns";
       name := Some "DNS-over-TLS queries ratio";
       native_unit_of_measurement := Some PERCENTAGE;
       state_class := Some MEASUREMENT;
       value := fun data => getattr data "dot_queries_ratio" |};
    {| type_argument := ClsAnalyticsProtocols;
       key := "doq_queries_ratio";
       coordinator_type := ATTR_PROTOCOLS;
       entity_category := Some DIAGNOSTIC;
       entity_registry_enabled_default := false;
       icon := Some "mdi:dns";
       name := Some "DNS-over-QUIC queries ratio";
       native_unit_of_measurement := Some PERCENTAGE;
       state_class := Some MEASUREMENT;
       value := fun data => getattr data "doq_queries_ratio" |};
    {| type_argument := ClsAnalyticsProtocols;
       key := "udp_queries_ratio";
       coordinator_type := ATTR_PROTOCOLS;
       entity_category := Some DIAGNOSTIC;
       entity_registry_enabled_default := false;
       icon := Some "mdi:dns";
       name := Some "UDP queries ratio";
       native_unit_of_measurement := Some PERCENTAGE;
       state_class := Some MEASUREMENT;
       value := fun data => getattr data "udp_queries_ratio" |};
    {| type_argument := ClsAnalyticsEncryption;
       key := "encrypted_queries";
       coordinator_type := ATTR_ENCRYPTION;
       entity_category := Some DIAGNOSTIC;
       entity_registry_enabled_default := false;
       icon := Some "mdi:lock";
       name := Some "Encrypted queries";
       native_unit_of_measurement := Some "queries";
       state_class := Some MEASUREMENT;
       value := fun data => getattr data "encrypted_queries" |};
    {| type_argument := ClsAnalyticsEncryption;
       key := "unencrypted_queries";
       coordinator_type := ATTR_ENCRYPTION;
       entity_category := Some DIAGNOSTIC;
       entity_registry_enabled_default := false;
       icon := Some "mdi:lock-open";
       name := Some "Unencrypted queries";
       native_unit_of_measurement := Some "queries";
       state_class := Some MEASUREMENT;
       value := fun data => getattr data "unencrypted_queries" |};
    {| type_argument := ClsAnalyticsEncryption;
       key := "encrypted_queries_ratio";
       coordinator_type := ATTR_ENCRYPTION;
       entity_category := Some DIAGNOSTIC;
       entity_registry_enabled_default := false;
       icon := Some "mdi:lock";
       name := Some "Encrypted queries ratio";
       native_unit_of_measurement := Some PERCENTAGE;
       state_class := Some MEASUREMENT;
       value := fun data => getattr data "encrypted_queries_ratio" |};
    {| type_argument := ClsAnalyticsIpVersions;
       key := "ipv4_queries";
       coordinator_type := ATTR_IP_VERSIONS;
       entity_category := Some DIAGNOSTIC;
       entity_registry_enabled_default := false;
       icon := Some "mdi:ip";
       name := Some "IPv4 queries";
       native_unit_of_measurement := Some "queries";
       state_class := Some MEASUREMENT;
       value := fun data => getattr data "ipv4_queries" |};
    {| type_argument := ClsAnalyticsIpVersions;
       key := "ipv6_queries";
       coordinator_type := ATTR_IP_VERSIONS;
       entity_category := Some DIAGNOSTIC;
       entity_registry_enabled_default := false;
       icon := Some "mdi:ip";
       name := Some "IPv6 queries";
       native_unit_of_measurement := Some "queries";
       state_class := Some MEASUREMENT;
       value := fun data => getattr data "ipv6_queries" |};
    {| type_argument := ClsAnalyticsIpVersions;
       key := "ipv6_queries_ratio";
       coordinator_type := ATTR_IP_VERSIONS;
       entity_category := Some DIAGNOSTIC;
       entity_registry_enabled_default := false;
       icon := Some "mdi:ip";
       name := Some "IPv6 queries ratio";
       native_unit_of_measurement := Some PERCENTAGE;
       state_class := Some MEASUREMENT;
       value := fun data => getattr data "ipv6_queries_ratio" |};
    {| type_argument := ClsAnalyticsDnssec;
       key := "validated_queries";
       coordinator_type := ATTR_DNSSEC;
       entity_category := Some DIAGNOSTIC;
       entity_registry_enabled_default := false;
       icon := Some "mdi:lock-check";
       name := Some "DNSSEC validated queries";
       native_unit_of_measurement := Some "queries";
       state_class := Some MEASUREMENT;
       value := fun data => getattr data "validated_queries" |};
    {| type_argument := ClsAnalyticsDnssec;
       key := "not_validated_queries";
       coordinator_type := ATTR_DNSSEC;
       entity_category := Some DIAGNOSTIC;
       entity_registry_enabled_default := false;
       icon := Some "mdi:lock-alert";
       name := Some "DNSSEC not validated queries";
       native_unit_of_measurement := Some "queries";
       state_class := Some MEASUREMENT;
       value := fun data => getattr data "not_validated_queries" |};
    {| type_argument := ClsAnalyticsDnssec;
       key := "validated_queries_ratio";
       coordinator_type := ATTR_DNSSEC;
       entity_category := Some DIAGNOSTIC;
       entity_registry_enabled_default := false;
       icon := Some "mdi:lock-check";
       name := Some "DNSSEC validated queries ratio";
       native_unit_of_measurement := Some PERCENTAGE;
       state_class := Some MEASUREMENT;
       value := fun data => getattr data "validated_queries_ratio" |} ].

(** ** Coordinators, entities and the platform state *)

(** [DeviceInfo] is opaque to this module: it is copied, never inspected. *)
Definition DeviceInfo : Type := list (string * string).

(** Modelled from the spec: [NextDnsUpdateCoordinator] is declared in the
    package's [__init__], outside this module. The spec lists what the
    adapter consumes from it: the current snapshot, the profile identifier
    and the device metadata. *)
Record NextDnsUpdateCoordinator := {
  device_info : DeviceInfo;
  profile_id : string;
  data : Snapshot }.

(** A coordinator is a shared mutable object: entities hold a reference to
    it and the refresh mechanism replaces its [data] behind their back. A
    reference is the identity of the object in the store. *)
Definition loc : Type := positive.

(** The attributes of a [NextDnsSensor] instance. [coordinator] is the
    attribute set by [CoordinatorEntity.__init__]. *)
Record NextDnsSensor := {
  coordinator : loc;
  _attr_device_info : DeviceInfo;
  _attr_unique_id : string;
  _attr_native_value : StateType;
  entity_description : NextDnsSensorEntityDescription }.

(** Class attribute of [NextDnsSensor]. *)
Definition _attr_has_entity_name : bool := true.

Record ConfigEntry := { entry_id : string }.

(** What this module touches of the running platform: the coordinator
    objects, [hass.data[DOMAIN]] (config entry id to the entry's coordinators
    by tag), the entities handed to [async_add_entities], and the states
    written so far, oldest first, each with the writer's unique id. *)
Record HomeAssistant := {
  objects : gmap loc NextDnsUpdateCoordinator;
  hass_data : gmap string (gmap CoordinatorType loc);
  entities : list NextDnsSensor;
  states : list (string * StateType) }.

(** ** Computations that read and write the platform state and may raise *)

Definition M (A : Type) : Type := HomeAssistant -> result (A * HomeAssistant).

#[global] Instance M_ret : MRet M := fun A a hass => Ok (a, hass).

#[global] Instance M_bind : MBind M := fun A B f m hass =>
  match m hass with
  | Ok (a, hass') => f a hass'
  | Raise e => Raise e
  end.

Definition lift {A : Type} (r : result A) : M A := fun hass =>
  match r with
  | Ok a => Ok (a, hass)
  | Raise e => Raise e
  end.

(** Reading through a reference. A reference held by an entity always
    designates a live object; [InvalidReference] marks stores in which it
    does not, which no Python execution produces. *)
Definition deref (c : loc) : M NextDnsUpdateCoordinator := fun hass =>
  match objects hass !! c with
  | Some co => Ok (co, hass)
  | None => Raise InvalidReference
  end.

(** Modelled from the spec: [async_write_ha_state] belongs to the platform's
    entity base class, outside this module. It signals the platform to
    publish the entity's current state; here the published value is
    appended to the record of written states. *)
Definition with_state (hass : HomeAssistant) (uid : string) (v : StateType) : HomeAssistant :=
  {| objects := objects hass;
     hass_data := hass_data hass;
     entities := entities hass;
     states := states hass ++ [(uid, v)] |}.

Definition async_write_ha_state (self : NextDnsSensor) : M unit := fun hass =>
  Ok (tt, with_state hass (_attr_unique_id self) (_attr_native_value self)).

(** Modelled from the spec: [async_add_entities] is the platform's callback;
    it registers the instantiated adapters. *)
Definition async_add_entities (sensors : list NextDnsSensor) : M unit := fun hass =>
  Ok (tt, {| objects := objects hass;
             hass_data := hass_data hass;
             entities := entities hass ++ sensors;
             states := states hass |}).

(** ** The entity class *)

(** [NextDnsSensor.__init__]. The attributes are computed in the order of
    the source; [description.value(coordinator.data)] may raise, in which
    case no entity is constructed. *)
Definition NextDnsSensor__init__
    (coordinator0 : loc) (description : NextDnsSensorEntityDescription)
    : M NextDnsSensor :=
  co ← deref coordinator0;
  let device_info0 := device_info co in
  let unique_id := profile_id co +:+ "_" +:+ key description in
  native_value ← lift (value description (data co));
  mret {| coordinator := coordinator0;
          _attr_device_info := device_info0;
          _attr_unique_id := unique_id;
          _attr_native_value := native_value;
          entity_description := description |}.

(** The assignment [self._attr_native_value = v]. *)
Definition with_native_value (self : NextDnsSensor) (v : StateType) : NextDnsSensor :=
  {| coordinator := coordinator self;
     _attr_device_info := _attr_device_info self;
     _attr_unique_id := _attr_unique_id self;
     _attr_native_value := v;
     entity_description := entity_description self |}.

(** [NextDnsSensor._handle_coordinator_update]: the right-hand side is
    evaluated first and may raise; then the attribute is assigned and the
    state is written. Returns [self] as it is afterwards. *)
Definition _handle_coordinator_update (self : NextDnsSensor) : M NextDnsSensor :=
  co ← deref (coordinator self);
  native_value ← lift (value (entity_description self) (data co));
  let self' := with_native_value self native_value in
  _ ← async_write_ha_state self';
  mret self'.

(** ** Platform setup *)

(** The [for] loop of [async_setup_entry]: one entity per description, bound
    to the coordinator stored under the description's tag. *)
Fixpoint setup_loop
    (coordinators : gmap CoordinatorType loc)
    (descriptions : list NextDnsSensorEntityDescription)
    (sensors : list NextDnsSensor) : M (list NextDnsSensor) :=
  match descriptions with
  | [] => mret sensors
  | description :: rest =>
      match coordinators !! coordinator_type description with
      | None => lift (Raise (KeyError (attr_name (coordinator_type description))))
      | Some c =>
          sensor ← NextDnsSensor__init__ c description;
          setup_loop coordinators rest (sensors ++ [sensor])
      end
  end.

Definition async_setup_entry (entry : ConfigEntry) : M unit :=
  fun hass =>
    match hass_data hass !! entry_id entry with
    | None => Raise (KeyError (entry_id entry))
    | Some coordinators =>
        (sensors ← setup_loop coordinators SENSORS [];
         async_add_entities sensors) hass
    end.

(** ** What the data source does to an adapter *)

(** Modelled from the spec: the refresh mechanism lives outside this module.
    It replaces the snapshot held by a coordinator, and it invokes the update
    handler of a subscribed adapter, with no payload. The two are separate
    events: a notification may come without a new snapshot. *)
Inductive Event :=
  | NewSnapshot (c : loc) (snapshot : Snapshot)
  | UpdateNotification.

Definition set_data (snapshot : Snapshot) (co : NextDnsUpdateCoordinator)
    : NextDnsUpdateCoordinator :=
  {| device_info := device_info co;
     profile_id := profile_id co;
     data := snapshot |}.

Definition refresh (c : loc) (snapshot : Snapshot) : M unit := fun hass =>
  Ok (tt, {| objects := alter (set_data snapshot) c (objects hass);
             hass_data := hass_data hass;
             entities := entities hass;
             states := states hass |}).

Definition deliver (ev : Event) (self : NextDnsSensor) : M NextDnsSensor :=
  match ev with
  | NewSnapshot c snapshot => _ ← refresh c snapshot; mret self
  | UpdateNotification => _handle_coordinator_update self
  end.

Fixpoint run (evs : list Event) (self : NextDnsSensor) : M NextDnsSensor :=
  match evs with
  | [] => mret self
  | ev :: evs' => self' ← deliver ev self; run evs' self'
  end.

(** The extraction function of an adapter, applied to a snapshot. *)
Definition extract (self : NextDnsSensor) (snapshot : Snapshot) : result StateType :=
  value (entity_description self) snapshot.

(** The snapshot currently held by the coordinator an adapter is bound to. *)
Definition current_snapshot (self : NextDnsSensor) (hass : HomeAssistant)
    : option Snapshot :=
  data <$> objects hass !! coordinator self.

(** The adapter's displayed value is the extraction function applied to the
    snapshot its coordinator holds now. *)
Definition projected (self : NextDnsSensor) (hass : HomeAssistant) : Prop :=
  ∃ snapshot,
    current_snapshot self hass = Some snapshot ∧
    extract self snapshot = Ok (_attr_native_value self).

(** A coordinator is typed by the class of its data: an event respects the
    typing of the coordinator at [c], of class [T], when a snapshot stored
    there is an instance of [T]. Other coordinators are unconstrained. *)
Definition well_typed (c : loc) (T : SnapshotClass) (ev : Event) : bool :=
  match ev with
  | NewSnapshot c' snapshot =>
      if decide (c' = c) then bool_decide (class_of snapshot = T) else true
  | UpdateNotification => true
  end.

(** The coordinator an adapter is bound to is live and holds a snapshot of
    the class the adapter's description is typed against. *)
Definition bound (self : NextDnsSensor) (hass : HomeAssistant) : Prop :=
  ∃ co,
    objects hass !! coordinator self = Some co ∧
    class_of (data co) = type_argument (entity_description self).

(** The classes of snapshot and the tag under which the coordinator of each
    is stored, as the catalog pairs them. *)
Definition variants : list (SnapshotClass * CoordinatorType) :=
  [ (ClsAnalyticsStatus, ATTR_STATUS);
    (ClsAnalyticsProtocols, ATTR_PROTOCOLS);
    (ClsAnalyticsEncryption, ATTR_ENCRYPTION);
    (ClsAnalyticsIpVersions, ATTR_IP_VERSIONS);
    (ClsAnalyticsDnssec, ATTR_DNSSEC) ].

(** ** Sample data *)

#[global] Instance description_inhabited : Inhabited NextDnsSensorEntityDescription :=
  populate {| type_argument := ClsAnalyticsStatus;
              key := "";
              coordinator_type := ATTR_STATUS;
              entity_category := None;
              entity_registry_enabled_default := true;
              icon := None;
              name := None;
              native_unit_of_measurement := None;
              state_class := None;
              value := fun _ => Ok StateNone |}.

(** [SENSORS[0]] and [SENSORS[3]]: the entries keyed [all_queries] and
    [blocked_queries_ratio]. *)
Definition sensor_all_queries : NextDnsSensorEntityDescription := SENSORS !!! 0%nat.
Definition sensor_blocked_queries_ratio : NextDnsSensorEntityDescription := SENSORS !!! 3%nat.

Definition status_1000_250 : AnalyticsStatus :=
  {| all_queries := 1000;
     blocked_queries := 250;
     relayed_queries := 0;
     blocked_queries_ratio := 25.0%float |}.

Definition status_2000_100 : AnalyticsStatus :=
  {| all_queries := 2000;
     blocked_queries := 100;
     relayed_queries := 40;
     blocked_queries_ratio := 5.0%float |}.

Definition sample_coordinator : NextDnsUpdateCoordinator :=
  {| device_info := [("name", "Fake Profile")];
     profile_id := "xyz12";
     data := Status status_1000_250 |}.

(** A platform with one coordinator, at reference 1, stored under
    [ATTR_STATUS] for the config entry ["entry1"]. *)
Definition sample_hass : HomeAssistant :=
  {| objects := {[ 1%positive := sample_coordinator ]};
     hass_data := {[ "entry1" := {[ ATTR_STATUS := 1%positive ]} ]};
     entities := [];
     states := [] |}.

(** The adapter that the constructor returns for [SENSORS[3]] there. *)
Definition sample_sensor : NextDnsSensor :=
  {| coordinator := 1%positive;
     _attr_device_info := [("name", "Fake Profile")];
     _attr_unique_id := "xyz12_blocked_queries_ratio";
     _attr_native_value := StateFloat 25.0%float;
     entity_description := sensor_blocked_queries_ratio |}.

(** A second profile in the same process, at reference 2. *)
Definition other_coordinator : NextDnsUpdateCoordinator :=
  {| device_info := [("name", "Other Profile")];
     profile_id := "abc34";
     data := Status status_2000_100 |}.

Definition two_profiles_hass : HomeAssistant :=
  {| objects := {[ 1%positive := sample_coordinator; 2%positive := other_coordinator ]};
     hass_data := {[ "entry1" := {[ ATTR_STATUS := 1%positive ]};
                     "entry2" := {[ ATTR_STATUS := 2%positive ]} ]};
     entities := [];
     states := [] |}.

(** The four categories of snapshot that the specification lists: status,
    protocol mix, encryption mix and DNSSEC mix. *)
Definition spec_categories : list CoordinatorType :=
  [ATTR_STATUS; ATTR_PROTOCOLS; ATTR_ENCRYPTION; ATTR_DNSSEC].

(** A config entry with its five coordinators, one per tag, all of the
    profile ["xyz12"]. *)
Definition coordinator_of (snapshot : Snapshot) : NextDnsUpdateCoordinator :=
  {| device_info := [("name", "Fake Profile")];
     profile_id := "xyz12";
     data := snapshot |}.

Definition full_hass : HomeAssistant :=
  {| objects :=
       {[ 1%positive := coordinator_of (Status status_1000_250);
          2%positive := coordinator_of (Protocols
            {| doh_queries := 20; dot_queries := 30; doq_queries := 10;
               udp_queries := 40; doh_queries_ratio := 20.0%float;
               dot_queries_ratio := 30.0%float; doq_queries_ratio := 10.0%float;
               udp_queries_ratio := 40.0%float |});
          3%positive := coordinator_of (Encryption
            {| encrypted_queries := 80; unencrypted_queries := 20;
               encrypted_queries_ratio := 80.0%float |});
          4%positive := coordinator_of (IpVersions
            {| ipv4_queries := 90; ipv6_queries := 10;
               ipv6_queries_ratio := 10.0%float |});
          5%positive := coordinator_of (Dnssec
            {| validated_queries := 75; not_validated_queries := 25;
               validated_queries_ratio := 75.0%float |}) ]};
     hass_data :=
       {[ "entry1" := {[ ATTR_STATUS := 1%positive;
                         ATTR_PROTOCOLS := 2%positive;
                         ATTR_ENCRYPTION := 3%positive;
                         ATTR_IP_VERSIONS := 4%positive;
                         ATTR_DNSSEC := 5%positive ]} ]};
     entities := [];
     states := [] |}.

(** ** Vocabulary for the properties of setup and of runs *)

(** The entity that the constructor builds from description [d] when the
    dictionary [coordinators] has a live coordinator under [d]'s tag and the
    description's lambda returns on the coordinator's data. *)
Definition built (hass : HomeAssistant) (coordinators : gmap CoordinatorType loc)
    (d : NextDnsSensorEntityDescription) (s : NextDnsSensor) : Prop :=
  ∃ c co v,
    coordinators !! coordinator_type d = Some c ∧
    objects hass !! c = Some co ∧
    value d (data co) = Ok v ∧
    s = {| coordinator := c;
           _attr_device_info := device_info co;
           _attr_unique_id := profile_id co +:+ "_" +:+ key d;
           _attr_native_value := v;
           entity_description := d |}.

(** The dictionary has, under tag [t], a live coordinator whose data is an
    instance of class [T]. *)
Definition tag_ready (hass : HomeAssistant) (coordinators : gmap CoordinatorType loc)
    (Tt : SnapshotClass * CoordinatorType) : bool :=
  match coordinators !! Tt.2 with
  | Some c =>
      match objects hass !! c with
      | Some co => bool_decide (class_of (data co) = Tt.1)
      | None => false
      end
  | None => false
  end.

(** That holds for each of the five classes the catalog is typed against. *)
Definition entry_ready (hass : HomeAssistant) (coordinators : gmap CoordinatorType loc)
    : bool :=
  forallb (tag_ready hass coordinators) variants.

(** The platform after [async_add_entities sensors] and nothing else. *)
Definition with_entities (hass : HomeAssistant) (sensors : list NextDnsSensor)
    : HomeAssistant :=
  {| objects := objects hass;
     hass_data := hass_data hass;
     entities := entities hass ++ sensors;
     states := states hass |}.

(** Python's ["_" not in s]. *)
Fixpoint no_underscore (s : string) : bool :=
  match s with
  | EmptyString => true
  | String a s' => negb (String.eqb (String a EmptyString) "_") && no_underscore s'
  end.

(** Python's [s.endswith(suffix)]. *)
Definition endswith (s suffix : string) : bool :=
  String.eqb
    (String.substring (String.length s - String.length suffix)
       (String.length suffix) s)
    suffix
  && (String.length suffix <=? String.length s)%nat.

(** The number of update notifications in a sequence of events. *)
Fixpoint notifications (evs : list Event) : nat :=
  match evs with
  | [] => 0
  | NewSnapshot _ _ :: evs' => notifications evs'
  | UpdateNotification :: evs' => S (notifications evs')
  end.

(** The coordinators after the snapshots of a sequence of events have been
    stored, notifications left aside. *)
Definition store_after (evs : list Event)
    (objs : gmap loc NextDnsUpdateCoordinator) : gmap loc NextDnsUpdateCoordinator :=
  foldl (λ o ev,
           match ev with
           | NewSnapshot c snapshot => alter (set_data snapshot) c o
           | UpdateNotification => o
           end) objs evs.

(** Two profiles whose identifiers differ by the suffix ["_not"], each with
    a DNSSEC coordinator. *)
Definition dnssec_75_25 : AnalyticsDnssec :=
  {| validated_queries := 75;
     not_validated_queries := 25;
     validated_queries_ratio := 75.0%float |}.

Definition sensor_validated_queries : NextDnsSensorEntityDescription := SENSORS !!! 18%nat.
Definition sensor_not_validated_queries : NextDnsSensorEntityDescription := SENSORS !!! 19%nat.

Definition underscore_hass : HomeAssistant :=
  {| objects :=
       {[ 1%positive := {| device_info := []; profile_id := "xyz12_not";
                           data := Dnssec dnssec_75_25 |};
          2%positive := {| device_info := []; profile_id := "xyz12";
                           data := Dnssec dnssec_75_25 |} ]};
     hass_data := ∅;
     entities := [];
     states := [] |}.

(** * Properties *)

(** ** The catalog's extraction functions *)

Ltac catalog_cases H :=
  unfold SENSORS in H;
  repeat (apply elem_of_cons in H as [-> | H]);
  [ .. | by apply elem_of_nil in H ].

(** On a snapshot of the class it is typed against, every catalog lambda
    returns a value: the attribute it reads exists. *)
Lemma SENSORS_total (d : NextDnsSensorEntityDescription) (snapshot : Snapshot) :
  d ∈ SENSORS →
  class_of snapshot = type_argument d →
  ∃ v, value d snapshot = Ok v.
Proof.
  intros Hd Hc. catalog_cases Hd;
    destruct snapshot; cbn in Hc; try discriminate Hc;
    eexists; reflexivity.
Qed.

(** On a snapshot of any other class it raises [AttributeError]: no
    attribute name is shared between two classes. *)
Lemma SENSORS_class (d : NextDnsSensorEntityDescription) (snapshot : Snapshot) (v : StateType) :
  d ∈ SENSORS →
  value d snapshot = Ok v →
  class_of snapshot = type_argument d.
Proof.
  intros Hd Hv. catalog_cases Hd;
    destruct snapshot; cbn in Hv; try discriminate Hv; reflexivity.
Qed.

(** ** The two methods, as equations *)

Ltac unfold_M :=
  unfold mbind, M_bind, mret, M_ret, deref, lift, async_write_ha_state, refresh in *.

Lemma init_Ok (c : loc) (d : NextDnsSensorEntityDescription) (hass : HomeAssistant)
    (co : NextDnsUpdateCoordinator) (v : StateType) :
  objects hass !! c = Some co →
  value d (data co) = Ok v →
  NextDnsSensor__init__ c d hass =
    Ok ({| coordinator := c;
           _attr_device_info := device_info co;
           _attr_unique_id := profile_id co +:+ "_" +:+ key d;
           _attr_native_value := v;
           entity_description := d |}, hass).
Proof.
  intros Hco Hv. unfold NextDnsSensor__init__. unfold_M.
  rewrite Hco, Hv. reflexivity.
Qed.

Lemma init_inv (c : loc) (d : NextDnsSensorEntityDescription) (hass hass' : HomeAssistant)
    (self : NextDnsSensor) :
  NextDnsSensor__init__ c d hass = Ok (self, hass') →
  ∃ co v,
    objects hass !! c = Some co ∧ value d (data co) = Ok v ∧ hass' = hass ∧
    self = {| coordinator := c;
              _attr_device_info := device_info co;
              _attr_unique_id := profile_id co +:+ "_" +:+ key d;
              _attr_native_value := v;
              entity_description := d |}.
Proof.
  unfold NextDnsSensor__init__. unfold_M.
  destruct (objects hass !! c) as [co|] eqn:Hco; [|discriminate].
  destruct (value d (data co)) as [v|e] eqn:Hv; [|discriminate].
  intros [= <- <-]. by exists co, v.
Qed.

Lemma update_Ok (self : NextDnsSensor) (hass : HomeAssistant)
    (co : NextDnsUpdateCoordinator) (v : StateType) :
  objects hass !! coordinator self = Some co →
  value (entity_description self) (data co) = Ok v →
  _handle_coordinator_update self hass =
    Ok (with_native_value self v, with_state hass (_attr_unique_id self) v).
Proof.
  intros Hco Hv. unfold _handle_coordinator_update. unfold_M.
  rewrite Hco, Hv. reflexivity.
Qed.

Lemma update_inv (self self' : NextDnsSensor) (hass hass' : HomeAssistant) :
  _handle_coordinator_update self hass = Ok (self', hass') →
  ∃ co v,
    objects hass !! coordinator self = Some co ∧
    value (entity_description self) (data co) = Ok v ∧
    self' = with_native_value self v ∧
    hass' = with_state hass (_attr_unique_id self) v.
Proof.
  unfold _handle_coordinator_update. unfold_M.
  destruct (objects hass !! coordinator self) as [co|] eqn:Hco; [|discriminate].
  destruct (value (entity_description self) (data co)) as [v|e] eqn:Hv; [|discriminate].
  intros [= <- <-]. by exists co, v.
Qed.

(** ** Running a sequence of events *)

Lemma run_app (evs1 evs2 : list Event) (self : NextDnsSensor) (hass : HomeAssistant) :
  run (evs1 ++ evs2) self hass =
    match run evs1 self hass with
    | Ok (self', hass') => run evs2 self' hass'
    | Raise e => Raise e
    end.
Proof.
  revert self hass. induction evs1 as [|ev evs1 IH]; intros self hass; [done|].
  cbn [run app]. unfold mbind, M_bind.
  destruct (deliver ev self hass) as [[self' hass']|e]; [apply IH|done].
Qed.

Lemma deliver_bound (ev : Event) (self : NextDnsSensor) (hass : HomeAssistant) :
  entity_description self ∈ SENSORS →
  bound self hass →
  well_typed (coordinator self) (type_argument (entity_description self)) ev = true →
  ∃ self' hass',
    deliver ev self hass = Ok (self', hass') ∧
    bound self' hass' ∧
    coordinator self' = coordinator self ∧
    entity_description self' = entity_description self ∧
    (ev = UpdateNotification → projected self' hass').
Proof.
  intros Hd (co & Hco & Hcls) Hev. destruct ev as [c' snapshot|]; cbn in *.
  - unfold_M. eexists _, _. split; [reflexivity|].
    split; [|done]. unfold bound; cbn.
    destruct (decide (c' = coordinator self)) as [->|Hne].
    + rewrite lookup_alter_eq, Hco. cbn.
      eexists. split; [reflexivity|]. cbn. by apply bool_decide_eq_true in Hev.
    + rewrite lookup_alter_ne by done. eauto.
  - destruct (SENSORS_total _ (data co) Hd Hcls) as [v Hv].
    rewrite (update_Ok _ _ co v Hco Hv).
    eexists _, _. split; [reflexivity|]. cbn.
    split; [by exists co|]. do 2 (split; [done|]).
    intros _. exists (data co). unfold current_snapshot, extract. cbn.
    by rewrite Hco.
Qed.

Lemma run_bound (evs : list Event) (self : NextDnsSensor) (hass : HomeAssistant) :
  entity_description self ∈ SENSORS →
  bound self hass →
  Forall (λ ev, well_typed (coordinator self)
                  (type_argument (entity_description self)) ev = true) evs →
  ∃ self' hass',
    run evs self hass = Ok (self', hass') ∧
    bound self' hass' ∧
    coordinator self' = coordinator self ∧
    entity_description self' = entity_description self.
Proof.
  revert self hass. induction evs as [|ev evs IH]; intros self hass Hd Hb Hevs.
  - by exists self, hass.
  - apply Forall_cons in Hevs as [Hev Hevs].
    destruct (deliver_bound ev self hass Hd Hb Hev)
      as (self1 & hass1 & Hrun & Hb1 & Hc1 & Hd1 & _).
    destruct (IH self1 hass1) as (self2 & hass2 & Hrun2 & Hb2 & Hc2 & Hd2).
    { by rewrite Hd1. } { done. } { by rewrite Hc1, Hd1. }
    exists self2, hass2. cbn [run]. unfold mbind, M_bind. rewrite Hrun.
    split; [done|]. split; [done|]. split; congruence.
Qed.

(** The handler reads nothing of the value displayed before. *)
Lemma update_forgets (self : NextDnsSensor) (v : StateType) (hass : HomeAssistant) :
  _handle_coordinator_update (with_native_value self v) hass =
  _handle_coordinator_update self hass.
Proof. reflexivity. Qed.

Lemma run_forgets (evs : list Event) (self : NextDnsSensor) (v : StateType)
    (hass : HomeAssistant) :
  run (evs ++ [UpdateNotification]) (with_native_value self v) hass =
  run (evs ++ [UpdateNotification]) self hass.
Proof.
  revert self hass. induction evs as [|[c snapshot|] evs IH]; intros self hass.
  - reflexivity.
  - cbn [run app deliver]. unfold_M. apply IH.
  - reflexivity.
Qed.

(** ** The displayed value is a projection of the latest snapshot *)

(** C1. Take any adapter built from a catalog definition and any sequence of
    events in which its coordinator only ever receives snapshots of its own
    class. At construction, and after each update notification of the
    sequence, the handler has returned and the displayed value is the
    definition's extraction function applied to the snapshot the bound
    coordinator holds at that moment. The value displayed earlier has no
    part in it: starting the same events from any other displayed value
    ends in the same adapter state. *)
Theorem displayed_value_is_projection
    (c : loc) (d : NextDnsSensorEntityDescription) (hass hass0 : HomeAssistant)
    (self0 : NextDnsSensor) (evs : list Event) :
  d ∈ SENSORS →
  NextDnsSensor__init__ c d hass = Ok (self0, hass0) →
  Forall (λ ev, well_typed c (type_argument d) ev = true) evs →
  projected self0 hass0 ∧
  (∀ pre post, evs = pre ++ UpdateNotification :: post →
     ∃ self1 hass1,
       run (pre ++ [UpdateNotification]) self0 hass0 = Ok (self1, hass1) ∧
       projected self1 hass1 ∧
       ∀ v, run (pre ++ [UpdateNotification]) (with_native_value self0 v) hass0
            = Ok (self1, hass1)).
Proof.
  intros Hd Hinit Hevs.
  apply init_inv in Hinit as (co & v & Hco & Hv & -> & ->).
  pose proof (SENSORS_class d (data co) v Hd Hv) as Hcls.
  set (self0 := {| coordinator := c; entity_description := d |}).
  assert (bound self0 hass) as Hb by (by exists co).
  split.
  { exists (data co). unfold current_snapshot, extract. cbn. by rewrite Hco. }
  intros pre post ->.
  apply Forall_app in Hevs as [Hpre _].
  destruct (run_bound pre self0 hass Hd Hb Hpre)
    as (self1 & hass1 & Hrun & Hb1 & Hc1 & Hd1).
  destruct (deliver_bound UpdateNotification self1 hass1)
    as (self2 & hass2 & Hrun2 & _ & _ & _ & Hproj); [by rewrite Hd1|done|done|].
  assert (run (pre ++ [UpdateNotification]) self0 hass = Ok (self2, hass2)) as Hall.
  { rewrite run_app, Hrun. cbn [run]. unfold mbind, M_bind. by rewrite Hrun2. }
  exists self2, hass2. split; [done|]. split; [by apply Hproj|].
  intros v'. by rewrite run_forgets.
Qed.

Lemma displayed_value_is_projection_witness :
  NextDnsSensor__init__ 1%positive sensor_blocked_queries_ratio sample_hass
    = Ok (sample_sensor, sample_hass) ∧
  projected sample_sensor sample_hass ∧
  ∃ self1 hass1,
    run ([NewSnapshot 1%positive (Status status_2000_100); UpdateNotification]
           ++ [UpdateNotification]) sample_sensor sample_hass = Ok (self1, hass1) ∧
    projected self1 hass1 ∧
    _attr_native_value self1 = StateFloat 5.0%float.
Proof.
  split; [by vm_compute|].
  destruct (displayed_value_is_projection
              1%positive sensor_blocked_queries_ratio sample_hass sample_hass
              sample_sensor
              [NewSnapshot 1%positive (Status status_2000_100);
               UpdateNotification; UpdateNotification])
    as [H0 Hn].
  - apply list_elem_of_lookup. by exists 3%nat.
  - by vm_compute.
  - repeat constructor.
  - split; [exact H0|].
    destruct (Hn [NewSnapshot 1%positive (Status status_2000_100); UpdateNotification] [])
      as (self1 & hass1 & Hrun & Hproj & _); [reflexivity|].
    exists self1, hass1. split; [exact Hrun|]. split; [exact Hproj|].
    vm_compute in Hrun. by injection Hrun as <- _.
Defined.

(** ** Construction *)

(** C2. For every catalog definition and every coordinator holding a
    snapshot of the definition's class, the constructor returns an adapter
    whose displayed value is the definition's extraction function applied
    to that snapshot; nothing else of the platform changes. *)
Theorem initial_value_is_extraction
    (c : loc) (d : NextDnsSensorEntityDescription) (hass : HomeAssistant)
    (co : NextDnsUpdateCoordinator) :
  d ∈ SENSORS →
  objects hass !! c = Some co →
  class_of (data co) = type_argument d →
  ∃ self,
    NextDnsSensor__init__ c d hass = Ok (self, hass) ∧
    value d (data co) = Ok (_attr_native_value self).
Proof.
  intros Hd Hco Hcls. destruct (SENSORS_total d (data co) Hd Hcls) as [v Hv].
  eexists. split; [by apply init_Ok|]. done.
Qed.

Lemma initial_value_is_extraction_witness :
  ∃ self,
    NextDnsSensor__init__ 1%positive sensor_all_queries sample_hass
      = Ok (self, sample_hass) ∧
    value sensor_all_queries (Status status_1000_250)
      = Ok (_attr_native_value self).
Proof.
  apply (initial_value_is_extraction
           1%positive sensor_all_queries sample_hass sample_coordinator).
  - apply list_elem_of_lookup. by exists 0%nat.
  - by vm_compute.
  - reflexivity.
Defined.

(** ** Update notifications *)

(** A new snapshot followed by a notification, as one equation. *)
Lemma snapshot_then_notification
    (self : NextDnsSensor) (hass : HomeAssistant) (co : NextDnsUpdateCoordinator)
    (snapshot : Snapshot) (v : StateType) :
  objects hass !! coordinator self = Some co →
  extract self snapshot = Ok v →
  ∃ hass',
    run [NewSnapshot (coordinator self) snapshot; UpdateNotification] self hass
      = Ok (with_native_value self v, hass') ∧
    objects hass' !! coordinator self = Some (set_data snapshot co).
Proof.
  intros Hco Hv. cbn [run deliver]. unfold mbind at 1 2 3, M_bind, refresh, mret, M_ret.
  erewrite update_Ok; [| cbn; rewrite lookup_alter_eq, Hco; reflexivity | exact Hv].
  eexists. split; [reflexivity|]. cbn. by rewrite lookup_alter_eq, Hco.
Qed.

(** C3. For every adapter built on a catalog definition and every two
    snapshots [S1], [S2] of its class: when the coordinator comes to hold
    [S1] and a notification is delivered, then comes to hold [S2] and a
    second notification is delivered, both handlers return and the final
    displayed value is [extract S2]; it is not [extract S1] whenever the two
    extractions differ. *)
Theorem last_snapshot_wins
    (self : NextDnsSensor) (hass : HomeAssistant) (S1 S2 : Snapshot) :
  entity_description self ∈ SENSORS →
  is_Some (objects hass !! coordinator self) →
  class_of S1 = type_argument (entity_description self) →
  class_of S2 = type_argument (entity_description self) →
  ∃ self' hass' v2,
    run [NewSnapshot (coordinator self) S1; UpdateNotification;
         NewSnapshot (coordinator self) S2; UpdateNotification] self hass
      = Ok (self', hass') ∧
    extract self S2 = Ok v2 ∧
    _attr_native_value self' = v2 ∧
    (∀ v1, extract self S1 = Ok v1 → v1 ≠ v2 → _attr_native_value self' ≠ v1).
Proof.
  intros Hd [co Hco] Hc1 Hc2.
  destruct (SENSORS_total _ S1 Hd Hc1) as [v1 Hv1].
  destruct (SENSORS_total _ S2 Hd Hc2) as [v2 Hv2].
  destruct (snapshot_then_notification self hass co S1 v1 Hco Hv1)
    as (hass1 & Hrun1 & Hco1).
  destruct (snapshot_then_notification (with_native_value self v1) hass1
              (set_data S1 co) S2 v2 Hco1 Hv2) as (hass2 & Hrun2 & _).
  eexists _, hass2, v2. split.
  - change [NewSnapshot (coordinator self) S1; UpdateNotification;
            NewSnapshot (coordinator self) S2; UpdateNotification]
      with ([NewSnapshot (coordinator self) S1; UpdateNotification] ++
            [NewSnapshot (coordinator self) S2; UpdateNotification]).
    rewrite run_app, Hrun1. exact Hrun2.
  - split; [exact Hv2|]. split; [reflexivity|].
    intros v1' _ Hne. cbn. congruence.
Qed.

Lemma last_snapshot_wins_witness :
  ∃ self' hass',
    run [NewSnapshot 1%positive (Status status_2000_100); UpdateNotification;
         NewSnapshot 1%positive (Status status_1000_250); UpdateNotification]
        sample_sensor sample_hass = Ok (self', hass') ∧
    _attr_native_value self' = StateFloat 25.0%float ∧
    _attr_native_value self' ≠ StateFloat 5.0%float.
Proof.
  destruct (last_snapshot_wins sample_sensor sample_hass
              (Status status_2000_100) (Status status_1000_250))
    as (self' & hass' & v2 & Hrun & Hv2 & Hval & Hne).
  - apply list_elem_of_lookup. by exists 3%nat.
  - eexists. by vm_compute.
  - reflexivity.
  - reflexivity.
  - exists self', hass'. split; [exact Hrun|].
    vm_compute in Hv2. injection Hv2 as <-.
    split; [exact Hval|]. apply Hne; [by vm_compute|].
    intros H. by inversion H.
Defined.

(** C5. When the handler has returned and is invoked again with the platform
    otherwise untouched, so with the same snapshot in the coordinator, it
    returns again and the adapter is exactly as after the first invocation:
    the displayed value is unchanged. The only effect of the second
    invocation is one more written state, equal to the state the first
    invocation wrote. *)
Theorem update_idempotent
    (self self1 : NextDnsSensor) (hass hass1 : HomeAssistant) :
  _handle_coordinator_update self hass = Ok (self1, hass1) →
  _handle_coordinator_update self1 hass1 =
    Ok (self1, with_state hass1 (_attr_unique_id self1) (_attr_native_value self1)) ∧
  last (states hass1) = Some (_attr_unique_id self1, _attr_native_value self1).
Proof.
  intros H. apply update_inv in H as (co & v & Hco & Hv & -> & ->).
  split.
  - by rewrite (update_Ok (with_native_value self v) _ co v).
  - cbn. by rewrite last_snoc.
Qed.

Lemma update_idempotent_witness :
  ∃ self1 hass1,
    _handle_coordinator_update sample_sensor sample_hass = Ok (self1, hass1) ∧
    _handle_coordinator_update self1 hass1 =
      Ok (self1, with_state hass1 (_attr_unique_id self1) (_attr_native_value self1)) ∧
    last (states hass1) = Some (_attr_unique_id self1, _attr_native_value self1).
Proof.
  eexists _, _. split; [vm_compute; reflexivity|].
  apply (update_idempotent sample_sensor _ sample_hass _). vm_compute; reflexivity.
Defined.

(** C8. For every adapter built on a catalog definition whose coordinator
    holds a snapshot of the definition's class, the update handler returns:
    no exception is raised. *)
Theorem update_does_not_raise
    (self : NextDnsSensor) (hass : HomeAssistant) (co : NextDnsUpdateCoordinator) :
  entity_description self ∈ SENSORS →
  objects hass !! coordinator self = Some co →
  class_of (data co) = type_argument (entity_description self) →
  ∃ self' hass', _handle_coordinator_update self hass = Ok (self', hass').
Proof.
  intros Hd Hco Hcls. destruct (SENSORS_total _ (data co) Hd Hcls) as [v Hv].
  eexists _, _. by apply (update_Ok self hass co v).
Qed.

Lemma update_does_not_raise_witness :
  ∃ self' hass', _handle_coordinator_update sample_sensor sample_hass = Ok (self', hass').
Proof.
  apply (update_does_not_raise sample_sensor sample_hass sample_coordinator).
  - apply list_elem_of_lookup. by exists 3%nat.
  - by vm_compute.
  - reflexivity.
Defined.

(** C10. Whenever the update handler returns, the adapter's coordinator
    reference, unique identifier, device information and entity description
    are what they were before; only the native value may differ. On the
    platform side the coordinators, the stored data and the registered
    entities are untouched. *)
Theorem update_frame
    (self self' : NextDnsSensor) (hass hass' : HomeAssistant) :
  _handle_coordinator_update self hass = Ok (self', hass') →
  _attr_unique_id self' = _attr_unique_id self ∧
  _attr_device_info self' = _attr_device_info self ∧
  entity_description self' = entity_description self ∧
  coordinator self' = coordinator self ∧
  objects hass' = objects hass ∧
  hass_data hass' = hass_data hass ∧
  entities hass' = entities hass.
Proof.
  intros H. by apply update_inv in H as (co & v & _ & _ & -> & ->).
Qed.

Lemma update_frame_witness :
  ∃ self' hass',
    _handle_coordinator_update
      (with_native_value sample_sensor StateNone) sample_hass = Ok (self', hass') ∧
    _attr_native_value self' = StateFloat 25.0%float ∧
    _attr_unique_id self' = "xyz12_blocked_queries_ratio" ∧
    _attr_device_info self' = [("name", "Fake Profile")] ∧
    entity_description self' = sensor_blocked_queries_ratio ∧
    objects hass' = objects sample_hass.
Proof.
  eexists _, _. split; [vm_compute; reflexivity|].
  split; [reflexivity|].
  destruct (update_frame (with_native_value sample_sensor StateNone) _ sample_hass _
              ltac:(vm_compute; reflexivity))
    as (Hu & Hdev & Hdesc & _ & Hobj & _).
  split; [exact Hu|]. split; [exact Hdev|]. split; [exact Hdesc|]. exact Hobj.
Defined.

(** ** Unique identifiers *)

Lemma list_ascii_of_string_app (s1 s2 : string) :
  list_ascii_of_string (s1 +:+ s2) =
  list_ascii_of_string s1 ++ list_ascii_of_string s2.
Proof. induction s1 as [|a s1 IH]; [done|]. cbn. by rewrite <- IH. Qed.

Lemma append_inv_tail (p1 p2 s : string) : p1 +:+ s = p2 +:+ s → p1 = p2.
Proof.
  intros H. apply (f_equal list_ascii_of_string) in H.
  rewrite !list_ascii_of_string_app in H. apply app_inv_tail in H.
  apply (f_equal string_of_list_ascii) in H.
  by rewrite !string_of_list_ascii_of_string in H.
Qed.

Lemma append_inv_head (p s1 s2 : string) : p +:+ s1 = p +:+ s2 → s1 = s2.
Proof. induction p as [|a p IH]; [done|]. intros [= H]. by apply IH. Qed.

(** C4. The unique identifier is the profile identifier, an underscore and
    the definition's key. For two adapters that have been constructed: under
    one profile identifier, definitions with distinct keys give distinct
    unique identifiers; and with one key, so in particular for one and the
    same definition, distinct profile identifiers give distinct unique
    identifiers. *)
Theorem unique_id_injective
    (hass hass1 hass2 : HomeAssistant) (c1 c2 : loc)
    (co1 co2 : NextDnsUpdateCoordinator)
    (d1 d2 : NextDnsSensorEntityDescription) (s1 s2 : NextDnsSensor) :
  objects hass !! c1 = Some co1 →
  objects hass !! c2 = Some co2 →
  NextDnsSensor__init__ c1 d1 hass = Ok (s1, hass1) →
  NextDnsSensor__init__ c2 d2 hass = Ok (s2, hass2) →
  _attr_unique_id s1 = profile_id co1 +:+ "_" +:+ key d1 ∧
  _attr_unique_id s2 = profile_id co2 +:+ "_" +:+ key d2 ∧
  (profile_id co1 = profile_id co2 → key d1 ≠ key d2 →
   _attr_unique_id s1 ≠ _attr_unique_id s2) ∧
  (key d1 = key d2 → profile_id co1 ≠ profile_id co2 →
   _attr_unique_id s1 ≠ _attr_unique_id s2).
Proof.
  intros Hco1 Hco2 H1 H2.
  apply init_inv in H1 as (co1' & v1 & Hco1' & _ & _ & ->).
  apply init_inv in H2 as (co2' & v2 & Hco2' & _ & _ & ->).
  rewrite Hco1 in Hco1'. rewrite Hco2 in Hco2'.
  injection Hco1' as <-. injection Hco2' as <-. cbn.
  split; [done|]. split; [done|]. split.
  - intros Hp Hk Heq. rewrite Hp in Heq.
    apply append_inv_head, append_inv_head in Heq. contradiction.
  - intros Hk Hp Heq. rewrite Hk in Heq.
    change (profile_id co1 +:+ "_" +:+ key d2)
      with (profile_id co1 +:+ ("_" +:+ key d2)) in Heq.
    apply append_inv_tail in Heq. contradiction.
Qed.

Lemma unique_id_injective_witness :
  ∃ s1 s2 s3,
    NextDnsSensor__init__ 1%positive sensor_all_queries two_profiles_hass
      = Ok (s1, two_profiles_hass) ∧
    NextDnsSensor__init__ 1%positive sensor_blocked_queries_ratio two_profiles_hass
      = Ok (s2, two_profiles_hass) ∧
    NextDnsSensor__init__ 2%positive sensor_all_queries two_profiles_hass
      = Ok (s3, two_profiles_hass) ∧
    _attr_unique_id s1 = "xyz12_all_queries" ∧
    _attr_unique_id s1 ≠ _attr_unique_id s2 ∧
    _attr_unique_id s1 ≠ _attr_unique_id s3.
Proof.
  eexists _, _, _.
  split; [vm_compute; reflexivity|].
  split; [vm_compute; reflexivity|].
  split; [vm_compute; reflexivity|].
  split; [reflexivity|]. split.
  - refine (proj1 (proj2 (proj2
      (unique_id_injective two_profiles_hass _ _ 1%positive 1%positive
         sample_coordinator sample_coordinator
         sensor_all_queries sensor_blocked_queries_ratio _ _ _ _ _ _))) _ _).
    + by vm_compute.
    + by vm_compute.
    + vm_compute; reflexivity.
    + vm_compute; reflexivity.
    + reflexivity.
    + by vm_compute.
  - refine (proj2 (proj2 (proj2
      (unique_id_injective two_profiles_hass _ _ 1%positive 2%positive
         sample_coordinator other_coordinator
         sensor_all_queries sensor_all_queries _ _ _ _ _ _))) _ _).
    + by vm_compute.
    + by vm_compute.
    + vm_compute; reflexivity.
    + vm_compute; reflexivity.
    + reflexivity.
    + by vm_compute.
Defined.

(** ** The catalog *)

Lemma SENSORS_keys_NoDup : NoDup (key <$> SENSORS).
Proof. apply (bool_decide_unpack _). by vm_compute. Qed.

(** C9. The keys of the catalog are pairwise distinct: two definitions at
    different positions of [SENSORS] have different keys. *)
Theorem SENSORS_keys_distinct
    (i j : nat) (d1 d2 : NextDnsSensorEntityDescription) :
  SENSORS !! i = Some d1 →
  SENSORS !! j = Some d2 →
  i ≠ j →
  key d1 ≠ key d2.
Proof.
  intros Hi Hj Hne Hk. apply Hne.
  apply (proj1 (NoDup_alt (key <$> SENSORS)) SENSORS_keys_NoDup i j (key d1)).
  - by rewrite list_lookup_fmap, Hi.
  - by rewrite list_lookup_fmap, Hj, Hk.
Qed.

Lemma SENSORS_keys_distinct_witness :
  key sensor_all_queries ≠ key sensor_blocked_queries_ratio.
Proof.
  apply (SENSORS_keys_distinct 0 3); [reflexivity | reflexivity | lia].
Defined.

(** C6, as the specification states it, fails: the definition at position
    15, keyed [ipv4_queries], is typed against [AnalyticsIpVersions] and
    carries the tag [ATTR_IP_VERSIONS], which is none of the four categories
    the specification lists. *)
Lemma ip_versions_outside_spec_categories :
  (∃ d, SENSORS !! 15%nat = Some d ∧
        key d = "ipv4_queries" ∧
        type_argument d = ClsAnalyticsIpVersions ∧
        coordinator_type d = ATTR_IP_VERSIONS ∧
        coordinator_type d ∉ spec_categories) ∧
  ¬ (∀ d, d ∈ SENSORS → coordinator_type d ∈ spec_categories).
Proof.
  assert (ATTR_IP_VERSIONS ∉ spec_categories) as Hnot.
  { unfold spec_categories. rewrite !not_elem_of_cons. repeat split; try done.
    apply not_elem_of_nil. }
  split.
  - eexists. split; [reflexivity|]. by repeat split.
  - intros H. apply Hnot.
    change ATTR_IP_VERSIONS with (coordinator_type (SENSORS !!! 15%nat)).
    apply H. apply list_elem_of_lookup. by exists 15%nat.
Qed.

(** C6, amended. The catalog is typed against five classes of snapshot, each
    stored under a tag of its own. Every definition's tag is the one paired
    with the class its extraction function is typed against. The definitions
    tagged [ATTR_IP_VERSIONS] are exactly the three keyed [ipv4_queries],
    [ipv6_queries] and [ipv6_queries_ratio], in that order, and they are
    typed against [AnalyticsIpVersions]; every other definition carries one
    of the four categories the specification lists. *)
Theorem SENSORS_categories :
  NoDup variants.*1 ∧ NoDup variants.*2 ∧
  Forall (λ d,
    (type_argument d, coordinator_type d) ∈ variants ∧
    (coordinator_type d ∈ spec_categories ∨
     coordinator_type d = ATTR_IP_VERSIONS ∧
     key d ∈ ["ipv4_queries"; "ipv6_queries"; "ipv6_queries_ratio"])) SENSORS ∧
  key <$> filter (λ d, coordinator_type d = ATTR_IP_VERSIONS) SENSORS
    = ["ipv4_queries"; "ipv6_queries"; "ipv6_queries_ratio"] ∧
  Forall (λ d,
    bool_decide (key d ∈ ["ipv4_queries"; "ipv6_queries"; "ipv6_queries_ratio"])
      = bool_decide (coordinator_type d = ATTR_IP_VERSIONS) ∧
    bool_decide (key d ∈ ["ipv4_queries"; "ipv6_queries"; "ipv6_queries_ratio"])
      = bool_decide (type_argument d = ClsAnalyticsIpVersions) ∧
    bool_decide (key d ∈ ["ipv4_queries"; "ipv6_queries"; "ipv6_queries_ratio"])
      = negb (bool_decide (coordinator_type d ∈ spec_categories))) SENSORS.
Proof.
  split; [apply (bool_decide_unpack _); by vm_compute|].
  split; [apply (bool_decide_unpack _); by vm_compute|].
  split; [apply (bool_decide_unpack _); by vm_compute|].
  split; [by vm_compute|].
  apply (bool_decide_unpack _). by vm_compute.
Qed.

(** A key designates at most one definition of the catalog. *)
Lemma SENSORS_key_inj (d1 d2 : NextDnsSensorEntityDescription) :
  d1 ∈ SENSORS → d2 ∈ SENSORS → key d1 = key d2 → d1 = d2.
Proof.
  intros [i Hi]%list_elem_of_lookup [j Hj]%list_elem_of_lookup Hk.
  assert (i = j) as ->.
  { apply (proj1 (NoDup_alt (key <$> SENSORS)) SENSORS_keys_NoDup i j (key d1)).
    - by rewrite list_lookup_fmap, Hi.
    - by rewrite list_lookup_fmap, Hj, Hk. }
  congruence.
Qed.

(** ** A concrete scenario *)

(** C7. Let a coordinator hold a status snapshot with [all_queries = 1000]
    and [blocked_queries = 250], whose ratio the source precomputed as
    [25.0]. The adapter built from the catalog definition keyed
    [all_queries] displays the integer 1000, and the adapter built from the
    definition keyed [blocked_queries_ratio] displays the snapshot's ratio
    field as it is, the float 25.0. *)
Theorem status_scenario
    (c : loc) (hass : HomeAssistant) (co : NextDnsUpdateCoordinator)
    (s : AnalyticsStatus) (d_all d_ratio : NextDnsSensorEntityDescription) :
  objects hass !! c = Some co →
  data co = Status s →
  all_queries s = 1000 →
  blocked_queries s = 250 →
  blocked_queries_ratio s = 25.0%float →
  d_all ∈ SENSORS → key d_all = "all_queries" →
  d_ratio ∈ SENSORS → key d_ratio = "blocked_queries_ratio" →
  ∃ self_all self_ratio,
    NextDnsSensor__init__ c d_all hass = Ok (self_all, hass) ∧
    _attr_native_value self_all = StateInt 1000 ∧
    NextDnsSensor__init__ c d_ratio hass = Ok (self_ratio, hass) ∧
    _attr_native_value self_ratio = StateFloat (blocked_queries_ratio s) ∧
    _attr_native_value self_ratio = StateFloat 25.0%float.
Proof.
  intros Hco Hdata Hall _ Hratio Hd1 Hk1 Hd2 Hk2.
  assert (d_all = sensor_all_queries) as ->.
  { apply SENSORS_key_inj; [done| |done].
    apply list_elem_of_lookup. by exists 0%nat. }
  assert (d_ratio = sensor_blocked_queries_ratio) as ->.
  { apply SENSORS_key_inj; [done| |done].
    apply list_elem_of_lookup. by exists 3%nat. }
  eexists _, _. split.
  { apply (init_Ok c _ hass co (StateInt (all_queries s))); [done|].
    by rewrite Hdata. }
  split; [cbn; by rewrite Hall|]. split.
  { apply (init_Ok c _ hass co (StateFloat (blocked_queries_ratio s))); [done|].
    by rewrite Hdata. }
  split; [reflexivity|]. cbn. by rewrite Hratio.
Qed.

Lemma status_scenario_witness :
  ∃ self_all self_ratio,
    NextDnsSensor__init__ 1%positive sensor_all_queries sample_hass
      = Ok (self_all, sample_hass) ∧
    _attr_native_value self_all = StateInt 1000 ∧
    NextDnsSensor__init__ 1%positive sensor_blocked_queries_ratio sample_hass
      = Ok (self_ratio, sample_hass) ∧
    _attr_native_value self_ratio = StateFloat 25.0%float.
Proof.
  destruct (status_scenario 1%positive sample_hass sample_coordinator
              status_1000_250 sensor_all_queries sensor_blocked_queries_ratio)
    as (self_all & self_ratio & H1 & H2 & H3 & _ & H4).
  - by vm_compute.
  - reflexivity.
  - reflexivity.
  - reflexivity.
  - reflexivity.
  - apply list_elem_of_lookup. by exists 0%nat.
  - reflexivity.
  - apply list_elem_of_lookup. by exists 3%nat.
  - reflexivity.
  - by exists self_all, self_ratio.
Defined.

(** ** Platform setup on sample data *)

(** With a coordinator under each of the five tags, setup registers one
    entity per catalog definition, with pairwise distinct unique ids, bound
    to the coordinator stored under its definition's tag. *)
Example async_setup_entry_full :
  ∃ hass',
    async_setup_entry {| entry_id := "entry1" |} full_hass = Ok (tt, hass') ∧
    entity_description <$> entities hass' = SENSORS ∧
    NoDup (_attr_unique_id <$> entities hass') ∧
    _attr_native_value <$> entities hass' !! 14%nat = Some (StateFloat 80.0%float) ∧
    coordinator <$> entities hass' !! 15%nat = Some 4%positive.
Proof.
  eexists. split; [vm_compute; reflexivity|].
  split; [reflexivity|].
  split; [apply (bool_decide_unpack _); by vm_compute|].
  split; reflexivity.
Qed.

(** When the entry has no coordinator under a tag that the catalog uses, the
    dictionary lookup raises and no entity is registered. *)
Example async_setup_entry_missing_coordinator :
  async_setup_entry {| entry_id := "entry1" |} sample_hass
    = Raise (KeyError "ATTR_PROTOCOLS").
Proof. by vm_compute. Qed.

(** A catalog lambda applied to a snapshot of another class raises. *)
Example extraction_on_other_class :
  value sensor_all_queries (Encryption
    {| encrypted_queries := 80; unencrypted_queries := 20;
       encrypted_queries_ratio := 80.0%float |})
    = Raise (AttributeError "AnalyticsEncryption" "all_queries").
Proof. reflexivity. Qed.

(** * Further properties of the module *)

(** ** Platform setup *)

Lemma SENSORS_variants (d : NextDnsSensorEntityDescription) :
  d ∈ SENSORS → (type_argument d, coordinator_type d) ∈ variants.
Proof.
  assert (Forall (λ d, (type_argument d, coordinator_type d) ∈ variants) SENSORS)
    as H by (apply (bool_decide_unpack _); by vm_compute).
  intros Hd. by apply (proj1 (Forall_forall _ _) H).
Qed.

Lemma entry_ready_lookup (hass : HomeAssistant)
    (coordinators : gmap CoordinatorType loc) (d : NextDnsSensorEntityDescription) :
  entry_ready hass coordinators = true →
  d ∈ SENSORS →
  ∃ c co,
    coordinators !! coordinator_type d = Some c ∧
    objects hass !! c = Some co ∧
    class_of (data co) = type_argument d.
Proof.
  intros Hready Hd. unfold entry_ready in Hready.
  rewrite forallb_forall in Hready.
  specialize (Hready _ (proj1 (list_elem_of_In _ _) (SENSORS_variants d Hd))).
  unfold tag_ready in Hready. cbn in Hready.
  destruct (coordinators !! coordinator_type d) as [c|]; [|done].
  destruct (objects hass !! c) as [co|] eqn:Hco; [|done].
  apply bool_decide_eq_true in Hready. by exists c, co.
Qed.

Lemma built_tag_ready (hass : HomeAssistant)
    (coordinators : gmap CoordinatorType loc)
    (d : NextDnsSensorEntityDescription) (s : NextDnsSensor) :
  d ∈ SENSORS →
  built hass coordinators d s →
  tag_ready hass coordinators (type_argument d, coordinator_type d) = true.
Proof.
  intros Hd (c & co & v & Hc & Hco & Hv & _). unfold tag_ready. cbn.
  rewrite Hc, Hco. apply bool_decide_eq_true.
  by apply (SENSORS_class d (data co) v).
Qed.

Lemma setup_loop_Ok (hass : HomeAssistant) (coordinators : gmap CoordinatorType loc)
    (ds : list NextDnsSensorEntityDescription) (acc : list NextDnsSensor) :
  entry_ready hass coordinators = true →
  (∀ d, d ∈ ds → d ∈ SENSORS) →
  ∃ sensors,
    setup_loop coordinators ds acc hass = Ok (acc ++ sensors, hass) ∧
    Forall2 (built hass coordinators) ds sensors.
Proof.
  intros Hready. revert acc. induction ds as [|d ds IH]; intros acc Hds.
  - exists []. split; [|constructor]. cbn. by rewrite app_nil_r.
  - destruct (entry_ready_lookup hass coordinators d Hready) as (c & co & Hc & Hco & Hcls).
    { apply Hds. by left. }
    destruct (SENSORS_total d (data co)) as [v Hv]; [apply Hds; by left|done|].
    destruct (IH (acc ++ [ {| coordinator := c;
                              _attr_device_info := device_info co;
                              _attr_unique_id := profile_id co +:+ "_" +:+ key d;
                              _attr_native_value := v;
                              entity_description := d |} ]))
      as (sensors & Hloop & Hall).
    { intros d' Hd'. apply Hds. by right. }
    eexists (_ :: sensors). split.
    + cbn [setup_loop]. rewrite Hc. unfold mbind, M_bind.
      rewrite (init_Ok c d hass co v Hco Hv). rewrite Hloop.
      by rewrite <- app_assoc.
    + constructor; [|done]. by exists c, co, v.
Qed.

Lemma setup_loop_inv (hass hass' : HomeAssistant)
    (coordinators : gmap CoordinatorType loc)
    (ds : list NextDnsSensorEntityDescription) (acc r : list NextDnsSensor) :
  setup_loop coordinators ds acc hass = Ok (r, hass') →
  hass' = hass ∧
  ∃ sensors, r = acc ++ sensors ∧ Forall2 (built hass coordinators) ds sensors.
Proof.
  revert acc. induction ds as [|d ds IH]; intros acc.
  - cbn. intros [= <- <-]. split; [done|]. exists []. by rewrite app_nil_r.
  - cbn [setup_loop].
    destruct (coordinators !! coordinator_type d) as [c|] eqn:Hc; [|done].
    unfold mbind, M_bind.
    destruct (NextDnsSensor__init__ c d hass) as [[s hass1]|e] eqn:Hinit; [|done].
    apply init_inv in Hinit as (co & v & Hco & Hv & -> & ->).
    intros H. apply IH in H as (-> & sensors & -> & Hall).
    split; [done|]. eexists (_ :: sensors). split; [by rewrite <- app_assoc|].
    constructor; [|done]. by exists c, co, v.
Qed.

Lemma async_setup_entry_inv (entry : ConfigEntry) (hass hass' : HomeAssistant) (u : unit) :
  async_setup_entry entry hass = Ok (u, hass') →
  ∃ coordinators sensors,
    hass_data hass !! entry_id entry = Some coordinators ∧
    hass' = with_entities hass sensors ∧
    Forall2 (built hass coordinators) SENSORS sensors.
Proof.
  unfold async_setup_entry.
  destruct (hass_data hass !! entry_id entry) as [coordinators|]; [|done].
  unfold mbind, M_bind.
  destruct (setup_loop coordinators SENSORS [] hass) as [[r hass1]|e] eqn:Hloop; [|done].
  apply setup_loop_inv in Hloop as (-> & sensors & -> & Hall).
  unfold async_add_entities. intros [= <-].
  by exists coordinators, sensors.
Qed.

(** X1. Setup returns exactly when [hass.data] has the entry's dictionary
    and, for each of the five snapshot classes, the dictionary has under the
    class's tag a live coordinator whose data is an instance of that class. *)
Theorem async_setup_entry_returns_iff (entry : ConfigEntry) (hass : HomeAssistant) :
  (∃ hass', async_setup_entry entry hass = Ok (tt, hass')) ↔
  (∃ coordinators,
     hass_data hass !! entry_id entry = Some coordinators ∧
     entry_ready hass coordinators = true).
Proof.
  split.
  - intros [hass' H].
    apply async_setup_entry_inv in H as (coordinators & sensors & Hentry & _ & Hall).
    exists coordinators. split; [done|].
    assert (∀ i d, SENSORS !! i = Some d →
              tag_ready hass coordinators (type_argument d, coordinator_type d) = true)
      as Hready.
    { intros i d Hi.
      destruct (Forall2_lookup_l _ _ _ _ _ Hall Hi) as (s & _ & Hs).
      apply (built_tag_ready hass coordinators d s); [|done].
      apply list_elem_of_lookup. by exists i. }
    pose proof (Hready 0%nat _ eq_refl) as H0.
    pose proof (Hready 4%nat _ eq_refl) as H1.
    pose proof (Hready 12%nat _ eq_refl) as H2.
    pose proof (Hready 15%nat _ eq_refl) as H3.
    pose proof (Hready 18%nat _ eq_refl) as H4.
    unfold entry_ready, variants. cbn [forallb].
    change (tag_ready hass coordinators (ClsAnalyticsStatus, ATTR_STATUS) = true) in H0.
    change (tag_ready hass coordinators (ClsAnalyticsProtocols, ATTR_PROTOCOLS) = true) in H1.
    change (tag_ready hass coordinators (ClsAnalyticsEncryption, ATTR_ENCRYPTION) = true) in H2.
    change (tag_ready hass coordinators (ClsAnalyticsIpVersions, ATTR_IP_VERSIONS) = true) in H3.
    change (tag_ready hass coordinators (ClsAnalyticsDnssec, ATTR_DNSSEC) = true) in H4.
    by rewrite H0, H1, H2, H3, H4.
  - intros (coordinators & Hentry & Hready).
    destruct (setup_loop_Ok hass coordinators SENSORS [] Hready) as (sensors & Hloop & _);
      [done|].
    unfold async_setup_entry. rewrite Hentry. unfold mbind, M_bind.
    rewrite Hloop. unfold async_add_entities. by eexists.
Qed.

Lemma async_setup_entry_returns_iff_witness :
  ∃ hass', async_setup_entry {| entry_id := "entry1" |} full_hass = Ok (tt, hass').
Proof.
  apply (proj2 (async_setup_entry_returns_iff {| entry_id := "entry1" |} full_hass)).
  eexists. split; [vm_compute; reflexivity|]. by vm_compute.
Defined.

Lemma setup_loop_missing (hass : HomeAssistant)
    (coordinators : gmap CoordinatorType loc)
    (ds : list NextDnsSensorEntityDescription) (acc : list NextDnsSensor) :
  (∀ d, d ∈ ds → d ∈ SENSORS) →
  Forall (λ Tt, coordinators !! Tt.2 = None ∨ tag_ready hass coordinators Tt = true)
    variants →
  (∃ d, d ∈ ds ∧ coordinators !! coordinator_type d = None) →
  ∃ t,
    coordinators !! t = None ∧
    setup_loop coordinators ds acc hass = Raise (KeyError (attr_name t)).
Proof.
  intros Hds Hpresent. revert acc Hds.
  induction ds as [|d ds IH]; intros acc Hds (d0 & Hd0 & Hnone).
  - by apply elem_of_nil in Hd0.
  - cbn [setup_loop].
    destruct (coordinators !! coordinator_type d) as [c|] eqn:Hc.
    + assert (d ∈ SENSORS) as Hd by (apply Hds; by left).
      pose proof (proj1 (Forall_forall _ _) Hpresent _ (SENSORS_variants d Hd)) as Hr.
      cbn in Hr. destruct Hr as [Hr|Hr]; [congruence|].
      unfold tag_ready in Hr. cbn in Hr. rewrite Hc in Hr.
      destruct (objects hass !! c) as [co|] eqn:Hco; [|done].
      apply bool_decide_eq_true in Hr.
      destruct (SENSORS_total d (data co) Hd Hr) as [v Hv].
      unfold mbind, M_bind. rewrite (init_Ok c d hass co v Hco Hv).
      apply IH.
      * intros d' Hd'. apply Hds. by right.
      * apply elem_of_cons in Hd0 as [->|Hd0]; [congruence|]. by exists d0.
    + by exists (coordinator_type d).
Qed.

(** X2. When every coordinator that the entry's dictionary does hold is live
    and of the class of its tag, but some of the five tags has no
    coordinator, setup raises [KeyError] for a tag that is missing. *)
Theorem async_setup_entry_missing_tag
    (entry : ConfigEntry) (hass : HomeAssistant)
    (coordinators : gmap CoordinatorType loc) :
  hass_data hass !! entry_id entry = Some coordinators →
  Forall (λ Tt, coordinators !! Tt.2 = None ∨ tag_ready hass coordinators Tt = true)
    variants →
  entry_ready hass coordinators = false →
  ∃ t,
    coordinators !! t = None ∧
    async_setup_entry entry hass = Raise (KeyError (attr_name t)).
Proof.
  intros Hentry Hpresent Hnot.
  assert (∃ d, d ∈ SENSORS ∧ coordinators !! coordinator_type d = None) as Hmissing.
  { pose proof Hpresent as H. unfold variants in H.
    repeat (apply Forall_cons in H as [? H]). cbn in *.
    repeat match goal with
           | Hor : _ ∨ _ |- _ => destruct Hor
           end;
      try (unfold entry_ready, variants in Hnot; cbn [forallb] in Hnot;
           repeat match goal with
                  | Hr : tag_ready _ _ _ = true |- _ => rewrite Hr in Hnot; clear Hr
                  end;
           discriminate Hnot);
      match goal with
      | Hn : coordinators !! ATTR_STATUS = None |- _ => pose (i := 0%nat)
      | Hn : coordinators !! ATTR_PROTOCOLS = None |- _ => pose (i := 4%nat)
      | Hn : coordinators !! ATTR_ENCRYPTION = None |- _ => pose (i := 12%nat)
      | Hn : coordinators !! ATTR_IP_VERSIONS = None |- _ => pose (i := 15%nat)
      | Hn : coordinators !! ATTR_DNSSEC = None |- _ => pose (i := 18%nat)
      end;
      exists (SENSORS !!! i);
      (split; [apply list_elem_of_lookup; by exists i | assumption]). }
  destruct (setup_loop_missing hass coordinators SENSORS [] (λ _ H, H) Hpresent Hmissing)
    as (t & Ht & Hloop).
  exists t. split; [done|].
  unfold async_setup_entry. rewrite Hentry. unfold mbind, M_bind. by rewrite Hloop.
Qed.

Lemma async_setup_entry_missing_tag_witness :
  ∃ t,
    ({[ ATTR_STATUS := 1%positive ]} : gmap CoordinatorType loc) !! t = None ∧
    async_setup_entry {| entry_id := "entry1" |} sample_hass
      = Raise (KeyError (attr_name t)).
Proof.
  apply (async_setup_entry_missing_tag {| entry_id := "entry1" |} sample_hass
           {[ ATTR_STATUS := 1%positive ]}).
  - by vm_compute.
  - apply (bool_decide_unpack _). by vm_compute.
  - by vm_compute.
Defined.

Lemma built_descriptions (hass : HomeAssistant)
    (coordinators : gmap CoordinatorType loc)
    (ds : list NextDnsSensorEntityDescription) (sensors : list NextDnsSensor) :
  Forall2 (built hass coordinators) ds sensors →
  entity_description <$> sensors = ds.
Proof.
  induction 1 as [|d s ds sensors (c & co & v & _ & _ & _ & ->) _ IH]; [done|].
  cbn. by rewrite IH.
Qed.

Lemma built_projected (hass : HomeAssistant)
    (coordinators : gmap CoordinatorType loc)
    (d : NextDnsSensorEntityDescription) (s : NextDnsSensor)
    (sensors : list NextDnsSensor) :
  built hass coordinators d s →
  coordinators !! coordinator_type (entity_description s) = Some (coordinator s) ∧
  projected s (with_entities hass sensors).
Proof.
  intros (c & co & v & Hc & Hco & Hv & ->). cbn. split; [done|].
  exists (data co). unfold current_snapshot, extract. cbn. by rewrite Hco.
Qed.

(** X3. Whenever setup returns, it has touched no coordinator and written no
    state; it has appended to the registered entities exactly one entity per
    catalog definition, in the order of the catalog. Each new entity is
    bound to the coordinator that the entry's dictionary holds under its
    definition's tag, and displays its extraction function applied to that
    coordinator's snapshot. *)
Theorem async_setup_entry_registers_catalog
    (entry : ConfigEntry) (hass hass' : HomeAssistant) (u : unit) :
  async_setup_entry entry hass = Ok (u, hass') →
  objects hass' = objects hass ∧
  hass_data hass' = hass_data hass ∧
  states hass' = states hass ∧
  ∃ coordinators sensors,
    hass_data hass !! entry_id entry = Some coordinators ∧
    entities hass' = entities hass ++ sensors ∧
    entity_description <$> sensors = SENSORS ∧
    Forall (λ s,
      coordinators !! coordinator_type (entity_description s) = Some (coordinator s) ∧
      projected s hass') sensors.
Proof.
  intros H.
  apply async_setup_entry_inv in H as (coordinators & sensors & Hentry & -> & Hall).
  do 3 (split; [done|]). exists coordinators, sensors.
  split; [done|]. split; [done|].
  split; [by apply (built_descriptions hass coordinators)|].
  apply (Forall2_Forall_r _ _ _ _ Hall).
  apply Forall_forall. intros d _ s Hb.
  by apply (built_projected hass coordinators d).
Qed.

Lemma async_setup_entry_registers_catalog_witness :
  ∃ hass',
    async_setup_entry {| entry_id := "entry1" |} full_hass = Ok (tt, hass') ∧
    states hass' = [] ∧
    entity_description <$> entities hass' = SENSORS.
Proof.
  eexists. split; [vm_compute; reflexivity|].
  destruct (async_setup_entry_registers_catalog
              {| entry_id := "entry1" |} full_hass _ tt ltac:(vm_compute; reflexivity))
    as (_ & _ & Hst & coordinators & sensors & _ & Hent & Hdesc & _).
  split; [exact Hst|]. rewrite Hent. exact Hdesc.
Defined.

Lemma built_unique_ids (hass : HomeAssistant)
    (coordinators : gmap CoordinatorType loc) (p : string)
    (ds : list NextDnsSensorEntityDescription) (sensors : list NextDnsSensor) :
  (∀ t c co, coordinators !! t = Some c → objects hass !! c = Some co →
             profile_id co = p) →
  Forall2 (built hass coordinators) ds sensors →
  _attr_unique_id <$> sensors = (λ k, p +:+ "_" +:+ k) <$> (key <$> ds).
Proof.
  intros Hp.
  induction 1 as [|d s ds sensors (c & co & v & Hc & Hco & _ & ->) _ IH]; [done|].
  cbn. by rewrite IH, (Hp _ c co Hc Hco).
Qed.

(** X4. When all coordinators of the entry belong to one profile, the
    entities that setup registers have the unique ids
    [profile_id + "_" + key], one per catalog key in catalog order, and
    these are pairwise distinct. *)
Theorem async_setup_entry_unique_ids
    (entry : ConfigEntry) (hass hass' : HomeAssistant) (u : unit)
    (coordinators : gmap CoordinatorType loc) (p : string) :
  async_setup_entry entry hass = Ok (u, hass') →
  hass_data hass !! entry_id entry = Some coordinators →
  (∀ t c co, coordinators !! t = Some c → objects hass !! c = Some co →
             profile_id co = p) →
  ∃ sensors,
    entities hass' = entities hass ++ sensors ∧
    _attr_unique_id <$> sensors = (λ k, p +:+ "_" +:+ k) <$> (key <$> SENSORS) ∧
    NoDup (_attr_unique_id <$> sensors).
Proof.
  intros H Hentry Hp.
  apply async_setup_entry_inv in H as (coordinators' & sensors & Hentry' & -> & Hall).
  rewrite Hentry in Hentry'. injection Hentry' as <-.
  exists sensors. split; [done|].
  pose proof (built_unique_ids hass coordinators p SENSORS sensors Hp Hall) as Hids.
  split; [done|]. rewrite Hids.
  apply NoDup_fmap_2; [|apply SENSORS_keys_NoDup].
  intros k1 k2 Hk. by apply append_inv_head, append_inv_head in Hk.
Qed.

Lemma async_setup_entry_unique_ids_witness :
  ∃ hass' sensors,
    async_setup_entry {| entry_id := "entry1" |} full_hass = Ok (tt, hass') ∧
    entities hass' = entities full_hass ++ sensors ∧
    _attr_unique_id <$> sensors !! 0%nat = Some "xyz12_all_queries" ∧
    NoDup (_attr_unique_id <$> sensors).
Proof.
  eexists.
  destruct (async_setup_entry_unique_ids
              {| entry_id := "entry1" |} full_hass _ tt
              {[ ATTR_STATUS := 1%positive; ATTR_PROTOCOLS := 2%positive;
                 ATTR_ENCRYPTION := 3%positive; ATTR_IP_VERSIONS := 4%positive;
                 ATTR_DNSSEC := 5%positive ]} "xyz12"
              ltac:(vm_compute; reflexivity))
    as (sensors & Hent & Hids & Hnd).
  - by vm_compute.
  - intros t c co Hc Hco.
    assert (c = 1 ∨ c = 2 ∨ c = 3 ∨ c = 4 ∨ c = 5)%positive as Hcs.
    { destruct t; vm_compute in Hc; injection Hc as <-; tauto. }
    destruct Hcs as [->|[->|[->|[->| ->]]]];
      vm_compute in Hco; by injection Hco as <-.
  - exists sensors. split; [vm_compute; reflexivity|].
    split; [exact Hent|]. split; [|exact Hnd].
    apply (f_equal (λ l, l !! 0%nat)) in Hids.
    rewrite list_lookup_fmap in Hids. rewrite Hids. reflexivity.
Defined.

(** X5. After a successful setup, take two registered entities of one
    category. They hold the same coordinator reference; so when a snapshot of
    their class is stored through one entity's reference and the other is
    notified, its handler returns and it displays its own extraction of that
    snapshot. *)
Theorem async_setup_entry_then_update
    (entry : ConfigEntry) (hass hass' : HomeAssistant) (u : unit)
    (s1 s2 : NextDnsSensor) (snapshot : Snapshot) :
  async_setup_entry entry hass = Ok (u, hass') →
  s1 ∈ drop (length (entities hass)) (entities hass') →
  s2 ∈ drop (length (entities hass)) (entities hass') →
  coordinator_type (entity_description s1) = coordinator_type (entity_description s2) →
  class_of snapshot = type_argument (entity_description s2) →
  coordinator s1 = coordinator s2 ∧
  ∃ s2' hass'',
    run [NewSnapshot (coordinator s1) snapshot; UpdateNotification] s2 hass'
      = Ok (s2', hass'') ∧
    extract s2 snapshot = Ok (_attr_native_value s2').
Proof.
  intros H Hs1 Hs2 Htag Hcls.
  apply async_setup_entry_inv in H as (coordinators & sensors & Hentry & -> & Hall).
  cbn in Hs1, Hs2. rewrite drop_app_length in Hs1, Hs2.
  apply list_elem_of_lookup in Hs1 as [i1 Hi1].
  apply list_elem_of_lookup in Hs2 as [i2 Hi2].
  destruct (Forall2_lookup_r _ _ _ _ _ Hall Hi1)
    as (d1 & Hd1 & c1 & co1 & v1 & Hc1 & Hco1 & Hv1 & ->).
  destruct (Forall2_lookup_r _ _ _ _ _ Hall Hi2)
    as (d2 & Hd2 & c2 & co2 & v2 & Hc2 & Hco2 & Hv2 & ->).
  cbn in *. rewrite Htag, Hc2 in Hc1. injection Hc1 as <-.
  split; [done|].
  assert (d2 ∈ SENSORS) as Hin by (apply list_elem_of_lookup; by exists i2).
  destruct (SENSORS_total d2 snapshot Hin Hcls) as [v Hv].
  set (s2 := {| coordinator := c2; entity_description := d2 |}).
  destruct (snapshot_then_notification s2 (with_entities hass sensors) co2 snapshot v)
    as (hass'' & Hrun & _); [done|done|].
  by exists (with_native_value s2 v), hass''.
Qed.

Lemma async_setup_entry_then_update_witness :
  ∃ hass' s2' hass'',
    async_setup_entry {| entry_id := "entry1" |} full_hass = Ok (tt, hass') ∧
    run [NewSnapshot 1%positive (Status status_2000_100); UpdateNotification]
        sample_sensor hass' = Ok (s2', hass'') ∧
    extract sample_sensor (Status status_2000_100) = Ok (_attr_native_value s2').
Proof.
  eexists.
  destruct (async_setup_entry_then_update
              {| entry_id := "entry1" |} full_hass _ tt
              {| coordinator := 1%positive;
                 _attr_device_info := [("name", "Fake Profile")];
                 _attr_unique_id := "xyz12_all_queries";
                 _attr_native_value := StateInt 1000;
                 entity_description := sensor_all_queries |}
              sample_sensor (Status status_2000_100)
              ltac:(vm_compute; reflexivity))
    as (_ & s2' & hass'' & Hrun & Hv).
  - apply list_elem_of_lookup. exists 0%nat. by vm_compute.
  - apply list_elem_of_lookup. exists 3%nat. by vm_compute.
  - reflexivity.
  - reflexivity.
  - exists s2', hass''. split; [vm_compute; reflexivity|]. split; [exact Hrun|exact Hv].
Defined.

(** ** Unique identifiers across profiles *)

Lemma no_underscore_split (p1 p2 k1 k2 : string) :
  no_underscore p1 = true →
  no_underscore p2 = true →
  p1 +:+ "_" +:+ k1 = p2 +:+ "_" +:+ k2 →
  p1 = p2 ∧ k1 = k2.
Proof.
  revert p2. induction p1 as [|a p1 IH]; intros [|b p2] H1 H2 Heq.
  - injection Heq as Heq. split; [done|exact Heq].
  - injection Heq as <- _. cbn in H2. discriminate H2.
  - injection Heq as -> _. cbn in H1. discriminate H1.
  - injection Heq as -> Heq. cbn in H1, H2.
    apply andb_true_iff in H1 as [_ H1]. apply andb_true_iff in H2 as [_ H2].
    destruct (IH p2 H1 H2 Heq) as [-> ->]. done.
Qed.

(** X6. When neither profile identifier contains an underscore, two
    constructed adapters with the same unique id have the same profile
    identifier and the same key: the unique id determines the pair. *)
Theorem unique_id_determines_pair
    (hass hass1 hass2 : HomeAssistant) (c1 c2 : loc)
    (co1 co2 : NextDnsUpdateCoordinator)
    (d1 d2 : NextDnsSensorEntityDescription) (s1 s2 : NextDnsSensor) :
  objects hass !! c1 = Some co1 →
  objects hass !! c2 = Some co2 →
  no_underscore (profile_id co1) = true →
  no_underscore (profile_id co2) = true →
  NextDnsSensor__init__ c1 d1 hass = Ok (s1, hass1) →
  NextDnsSensor__init__ c2 d2 hass = Ok (s2, hass2) →
  _attr_unique_id s1 = _attr_unique_id s2 →
  profile_id co1 = profile_id co2 ∧ key d1 = key d2.
Proof.
  intros Hco1 Hco2 Hn1 Hn2 H1 H2.
  apply init_inv in H1 as (co1' & v1 & Hco1' & _ & _ & ->).
  apply init_inv in H2 as (co2' & v2 & Hco2' & _ & _ & ->).
  rewrite Hco1 in Hco1'. rewrite Hco2 in Hco2'.
  injection Hco1' as <-. injection Hco2' as <-. cbn.
  by apply no_underscore_split.
Qed.

Lemma unique_id_determines_pair_witness :
  profile_id sample_coordinator = profile_id sample_coordinator ∧
  key sensor_all_queries = key sensor_all_queries.
Proof.
  apply (unique_id_determines_pair two_profiles_hass two_profiles_hass two_profiles_hass
           1%positive 1%positive sample_coordinator sample_coordinator
           sensor_all_queries sensor_all_queries
           {| coordinator := 1%positive;
              _attr_device_info := [("name", "Fake Profile")];
              _attr_unique_id := "xyz12_all_queries";
              _attr_native_value := StateInt 1000;
              entity_description := sensor_all_queries |}
           {| coordinator := 1%positive;
              _attr_device_info := [("name", "Fake Profile")];
              _attr_unique_id := "xyz12_all_queries";
              _attr_native_value := StateInt 1000;
              entity_description := sensor_all_queries |});
    by vm_compute.
Defined.

(** X7. With an underscore in a profile identifier the unique id no longer
    determines the pair: for every [p], the adapter of profile [p + "_not"]
    for a definition keyed [validated_queries] and the adapter of profile
    [p] for a definition keyed [not_validated_queries], two keys of the
    catalog, get the same unique id. *)
Theorem unique_id_collision
    (hass hass1 hass2 : HomeAssistant) (c1 c2 : loc)
    (co1 co2 : NextDnsUpdateCoordinator)
    (d1 d2 : NextDnsSensorEntityDescription) (s1 s2 : NextDnsSensor) :
  objects hass !! c1 = Some co1 →
  objects hass !! c2 = Some co2 →
  profile_id co1 = profile_id co2 +:+ "_not" →
  key d1 = "validated_queries" →
  key d2 = "not_validated_queries" →
  NextDnsSensor__init__ c1 d1 hass = Ok (s1, hass1) →
  NextDnsSensor__init__ c2 d2 hass = Ok (s2, hass2) →
  _attr_unique_id s1 = _attr_unique_id s2 ∧
  profile_id co1 ≠ profile_id co2 ∧
  key d1 ≠ key d2 ∧
  "validated_queries" ∈ key <$> SENSORS ∧
  "not_validated_queries" ∈ key <$> SENSORS.
Proof.
  intros Hco1 Hco2 Hp Hk1 Hk2 H1 H2.
  apply init_inv in H1 as (co1' & v1 & Hco1' & _ & _ & ->).
  apply init_inv in H2 as (co2' & v2 & Hco2' & _ & _ & ->).
  rewrite Hco1 in Hco1'. rewrite Hco2 in Hco2'.
  injection Hco1' as <-. injection Hco2' as <-. cbn.
  rewrite Hp, Hk1, Hk2. split; [|split; [|split; [|split]]].
  - generalize (profile_id co2). intros p.
    induction p as [|a p IH]; [reflexivity|].
    change (String a ((p +:+ "_not") +:+ "_" +:+ "validated_queries")
            = String a (p +:+ "_" +:+ "not_validated_queries")).
    by rewrite IH.
  - generalize (profile_id co2). intros p Heq.
    induction p as [|a p IH]; [discriminate Heq|].
    injection Heq as Heq. by apply IH.
  - done.
  - apply (bool_decide_unpack _). by vm_compute.
  - apply (bool_decide_unpack _). by vm_compute.
Qed.

Lemma unique_id_collision_witness :
  ∃ s1 s2,
    NextDnsSensor__init__ 1%positive sensor_validated_queries underscore_hass
      = Ok (s1, underscore_hass) ∧
    NextDnsSensor__init__ 2%positive sensor_not_validated_queries underscore_hass
      = Ok (s2, underscore_hass) ∧
    _attr_unique_id s1 = "xyz12_not_validated_queries" ∧
    _attr_unique_id s1 = _attr_unique_id s2.
Proof.
  eexists _, _.
  split; [vm_compute; reflexivity|].
  split; [vm_compute; reflexivity|].
  split; [reflexivity|].
  refine (proj1 (unique_id_collision underscore_hass _ _ 1%positive 2%positive
                   _ _ sensor_validated_queries sensor_not_validated_queries _ _
                   _ _ _ _ _ _ _)).
  - vm_compute; reflexivity.
  - vm_compute; reflexivity.
  - reflexivity.
  - reflexivity.
  - reflexivity.
  - vm_compute; reflexivity.
  - vm_compute; reflexivity.
Defined.

(** ** Error paths *)

(** Each catalog lambda reads the attribute named by its definition's key. *)
Lemma SENSORS_value_key (d : NextDnsSensorEntityDescription) (snapshot : Snapshot) :
  d ∈ SENSORS → value d snapshot = getattr snapshot (key d).
Proof. intros Hd. catalog_cases Hd; reflexivity. Qed.

Lemma SENSORS_mismatch (d : NextDnsSensorEntityDescription) (snapshot : Snapshot) :
  d ∈ SENSORS →
  class_of snapshot ≠ type_argument d →
  value d snapshot = Raise (AttributeError (class_name (class_of snapshot)) (key d)).
Proof.
  intros Hd Hne. catalog_cases Hd;
    destruct snapshot; cbn in Hne; try (by destruct Hne); reflexivity.
Qed.

(** X8. The constructor, given a catalog definition and a live coordinator
    whose data is an instance of another class than the one the definition
    is typed against, raises [AttributeError] naming the class of the data
    and the definition's key: no entity is constructed. *)
Theorem init_raises_on_other_class
    (c : loc) (d : NextDnsSensorEntityDescription) (hass : HomeAssistant)
    (co : NextDnsUpdateCoordinator) :
  d ∈ SENSORS →
  objects hass !! c = Some co →
  class_of (data co) ≠ type_argument d →
  NextDnsSensor__init__ c d hass
    = Raise (AttributeError (class_name (class_of (data co))) (key d)).
Proof.
  intros Hd Hco Hne. unfold NextDnsSensor__init__. unfold_M.
  by rewrite Hco, (SENSORS_mismatch d (data co) Hd Hne).
Qed.

Lemma init_raises_on_other_class_witness :
  NextDnsSensor__init__ 1%positive sensor_validated_queries sample_hass
    = Raise (AttributeError "AnalyticsStatus" "validated_queries").
Proof.
  apply (init_raises_on_other_class 1%positive sensor_validated_queries
           sample_hass sample_coordinator).
  - apply list_elem_of_lookup. by exists 18%nat.
  - by vm_compute.
  - discriminate.
Defined.

(** X9. The update handler of an adapter built on a catalog definition
    raises [AttributeError] when its coordinator has come to hold an instance
    of another class, and raises in no other case while the coordinator is
    live: it returns exactly when the data is of the definition's class. *)
Theorem update_returns_iff_class
    (self : NextDnsSensor) (hass : HomeAssistant) (co : NextDnsUpdateCoordinator) :
  entity_description self ∈ SENSORS →
  objects hass !! coordinator self = Some co →
  (class_of (data co) = type_argument (entity_description self) →
   ∃ v, getattr (data co) (key (entity_description self)) = Ok v ∧
        _handle_coordinator_update self hass
          = Ok (with_native_value self v, with_state hass (_attr_unique_id self) v)) ∧
  (class_of (data co) ≠ type_argument (entity_description self) →
   _handle_coordinator_update self hass
     = Raise (AttributeError (class_name (class_of (data co)))
                (key (entity_description self)))).
Proof.
  intros Hd Hco. split.
  - intros Hcls. destruct (SENSORS_total _ (data co) Hd Hcls) as [v Hv].
    exists v. split; [by rewrite <- SENSORS_value_key|].
    by apply (update_Ok self hass co v).
  - intros Hne. unfold _handle_coordinator_update. unfold_M.
    by rewrite Hco, (SENSORS_mismatch _ (data co) Hd Hne).
Qed.

Lemma update_returns_iff_class_witness :
  ∃ hass',
    run [NewSnapshot 1%positive (Dnssec dnssec_75_25)] sample_sensor sample_hass
      = Ok (sample_sensor, hass') ∧
    _handle_coordinator_update sample_sensor hass'
      = Raise (AttributeError "AnalyticsDnssec" "blocked_queries_ratio").
Proof.
  eexists. split; [vm_compute; reflexivity|].
  refine (proj2 (update_returns_iff_class sample_sensor _
                   (set_data (Dnssec dnssec_75_25) sample_coordinator) _ _) _).
  - apply list_elem_of_lookup. by exists 3%nat.
  - by vm_compute.
  - discriminate.
Defined.

(** ** What a run of events does to the platform *)

(** X10. Whenever a run of events returns, the states written during it are
    appended to those written before, one per update notification and none
    for a new snapshot; each carries the adapter's unique id, and the last
    one is the value the adapter displays at the end. Without a notification
    the adapter is left as it was. *)
Theorem run_written_states
    (evs : list Event) (self self' : NextDnsSensor) (hass hass' : HomeAssistant) :
  run evs self hass = Ok (self', hass') →
  ∃ written,
    states hass' = states hass ++ written ∧
    length written = notifications evs ∧
    Forall (λ st, st.1 = _attr_unique_id self) written ∧
    (written ≠ [] →
     last written = Some (_attr_unique_id self, _attr_native_value self')) ∧
    (notifications evs = 0%nat → self' = self).
Proof.
  revert self hass. induction evs as [|[c snapshot|] evs IH]; intros self hass Hrun.
  - injection Hrun as <- <-. exists []. by rewrite app_nil_r.
  - cbn [run deliver] in Hrun. unfold_M.
    apply IH in Hrun as (written & Hst & Hlen & Hall & Hlast & Hsame).
    by exists written.
  - cbn [run deliver] in Hrun. unfold mbind, M_bind in Hrun.
    destruct (_handle_coordinator_update self hass) as [[self1 hass1]|e] eqn:Hup;
      [|done].
    apply update_inv in Hup as (co & v & _ & _ & -> & ->).
    apply IH in Hrun as (written & Hst & Hlen & Hall & Hlast & Hsame).
    cbn in *. exists ((_attr_unique_id self, v) :: written).
    split; [by rewrite Hst, <- app_assoc|].
    split; [cbn; by rewrite Hlen|]. split; [by constructor|]. split; [|done].
    intros _. destruct written as [|st written].
    + cbn in Hlen. by rewrite (Hsame (eq_sym Hlen)).
    + rewrite last_cons. by rewrite Hlast.
Qed.

Lemma run_written_states_witness :
  ∃ self' hass' written,
    run [NewSnapshot 1%positive (Status status_2000_100);
         UpdateNotification; UpdateNotification] sample_sensor sample_hass
      = Ok (self', hass') ∧
    states hass' = states sample_hass ++ written ∧
    length written = 2%nat ∧
    last written = Some ("xyz12_blocked_queries_ratio", StateFloat 5.0%float).
Proof.
  eexists _, _.
  destruct (run_written_states
              [NewSnapshot 1%positive (Status status_2000_100);
               UpdateNotification; UpdateNotification]
              sample_sensor _ sample_hass _ ltac:(vm_compute; reflexivity))
    as (written & Hst & Hlen & _ & Hlast & _).
  exists written. split; [vm_compute; reflexivity|].
  split; [exact Hst|]. split; [exact Hlen|].
  apply Hlast. by destruct written.
Defined.

(** X11. Whenever a run of events returns, the adapter has kept its
    coordinator reference, unique id, device information and description,
    and has written to no coordinator: the coordinators are those obtained
    by storing the snapshots of the sequence alone, and the stored data and
    the registered entities are unchanged. *)
Theorem run_frame
    (evs : list Event) (self self' : NextDnsSensor) (hass hass' : HomeAssistant) :
  run evs self hass = Ok (self', hass') →
  coordinator self' = coordinator self ∧
  _attr_unique_id self' = _attr_unique_id self ∧
  _attr_device_info self' = _attr_device_info self ∧
  entity_description self' = entity_description self ∧
  objects hass' = store_after evs (objects hass) ∧
  hass_data hass' = hass_data hass ∧
  entities hass' = entities hass.
Proof.
  revert self hass. induction evs as [|[c snapshot|] evs IH]; intros self hass Hrun.
  - by injection Hrun as <- <-.
  - cbn [run deliver] in Hrun. unfold_M.
    by apply IH in Hrun as (? & ? & ? & ? & ? & ? & ?).
  - cbn [run deliver] in Hrun. unfold mbind, M_bind in Hrun.
    destruct (_handle_coordinator_update self hass) as [[self1 hass1]|e] eqn:Hup;
      [|done].
    apply update_inv in Hup as (co & v & _ & _ & -> & ->).
    by apply IH in Hrun as (? & ? & ? & ? & ? & ? & ?).
Qed.

Lemma run_frame_witness :
  ∃ self' hass',
    run [NewSnapshot 1%positive (Status status_2000_100); UpdateNotification]
        sample_sensor sample_hass = Ok (self', hass') ∧
    _attr_unique_id self' = "xyz12_blocked_queries_ratio" ∧
    objects hass' =
      alter (set_data (Status status_2000_100)) 1%positive (objects sample_hass).
Proof.
  eexists _, _. split; [vm_compute; reflexivity|].
  destruct (run_frame
              [NewSnapshot 1%positive (Status status_2000_100); UpdateNotification]
              sample_sensor _ sample_hass _ ltac:(vm_compute; reflexivity))
    as (_ & Hu & _ & _ & Hobj & _).
  split; [exact Hu|exact Hobj].
Defined.

(** ** Presentation metadata of the catalog *)

(** X12. The sensors enabled by default are exactly those of the status
    category: [all_queries], [blocked_queries], [relayed_queries] and
    [blocked_queries_ratio]; every other definition sets
    [entity_registry_enabled_default=False]. *)
Theorem SENSORS_enabled_by_default :
  Forall (λ d,
    entity_registry_enabled_default d
      = bool_decide (coordinator_type d = ATTR_STATUS)) SENSORS ∧
  key <$> filter (λ d, entity_registry_enabled_default d = true) SENSORS
    = ["all_queries"; "blocked_queries"; "relayed_queries"; "blocked_queries_ratio"].
Proof.
  split; [apply (bool_decide_unpack _); by vm_compute|]. by vm_compute.
Qed.

(** X13. Every definition is a diagnostic measurement; its unit is
    [PERCENTAGE] when its key ends in [_ratio] and ["queries"] otherwise. *)
Theorem SENSORS_units :
  Forall (λ d,
    entity_category d = Some DIAGNOSTIC ∧
    state_class d = Some MEASUREMENT ∧
    native_unit_of_measurement d
      = Some (if endswith (key d) "_ratio" then PERCENTAGE else "queries")) SENSORS.
Proof.
  unfold SENSORS. repeat (apply Forall_cons; split; [by repeat split|]).
  apply Forall_nil_2.
Qed.

(** X14. Every definition has an icon and a display name, and the display
    names are pairwise distinct. *)
Theorem SENSORS_names_distinct :
  Forall (λ d, is_Some (name d) ∧ is_Some (icon d)) SENSORS ∧
  NoDup (name <$> SENSORS).
Proof.
  split.
  - unfold SENSORS. repeat (apply Forall_cons; split; [by split; eexists|]).
    apply Forall_nil_2.
  - apply (bool_decide_unpack _). by vm_compute.
Qed.
